(** * A model-based reflex agent (reflexagent.py), embedded in Rocq

    The Python module has two layers:

    - a generic core: [Rule], [rule_match], [update_state] and the class
      [ModelBasedReflexAgent] with its method [perceive];
    - the vacuum-world instance: [vacuum_transition_model],
      [vacuum_sensor_model], [vacuum_rules] and the driver under
      [if __name__ == "__main__"].

    The core never looks inside a belief state, an action or a percept, so it
    is embedded polymorphically.  Every callable the core receives may raise,
    hence collaborators return a [result].  [perceive] assigns to attributes of
    [self] and the driver prints: both are threaded through an explicit world
    in a state-and-exception computation, where a raised exception keeps the
    world as it was at the point of the raise (Python does not roll back
    attribute assignments).

    Belief states are values in that embedding.  A second embedding of the
    core, [Shared], keeps them as objects of a store that collaborators are
    handed references into; it is related to the first one for collaborators
    that do not change the objects they are given, as the vacuum models
    do not. *)

From Stdlib Require Import String.
From stdpp Require Import gmap strings list fin_maps.

Local Open Scope string_scope.
Local Open Scope list_scope.

(** ** Results of calls that may raise *)

Inductive result (E A : Type) : Type :=
| Ok (a : A)
| Raise (e : E).
Arguments Ok {E A} a.
Arguments Raise {E A} e.

#[global] Instance result_ret {E} : MRet (result E) := λ A a, Ok a.
#[global] Instance result_bind {E} : MBind (result E) := λ A B f m,
  match m with
  | Ok a => f a
  | Raise e => Raise e
  end.

(** ** Computations over a mutable world that may raise

    [Py E W A]: run from a world [W], end in a world, and either return an [A]
    or raise an [E]. *)

Record Py (E W A : Type) : Type := MkPy { runPy : W → result E A * W }.
Arguments MkPy {E W A} _.
Arguments runPy {E W A} _ _.

#[global] Instance Py_ret {E W} : MRet (Py E W) := λ A a, MkPy (λ w, (Ok a, w)).
#[global] Instance Py_bind {E W} : MBind (Py E W) := λ A B f m,
  MkPy (λ w,
    match runPy m w with
    | (Ok a, w') => runPy (f a) w'
    | (Raise e, w') => (Raise e, w')
    end).

Definition get {E W} : Py E W W := MkPy (λ w, (Ok w, w)).
Definition modify {E W} (f : W → W) : Py E W () := MkPy (λ w, (Ok (), f w)).
(** A call of a function that only computes a value (or raises). *)
Definition call {E W A} (r : result E A) : Py E W A := MkPy (λ w, (r, w)).

(** ** The generic core *)

Section Core.
Context {State Action Percept Exn : Type}.

(** [class Rule]: a frozen dataclass, a condition and an action.  It defines
    neither [__bool__] nor [__len__], so every instance is truthy. *)
Record Rule : Type := MkRule {
  condition : State → result Exn bool;
  action : Action
}.

(** [rule_match]: the [for] loop returns at the first rule whose condition
    holds; a condition that raises ends the loop with that exception. *)
Fixpoint rule_match (state : State) (rules : list Rule)
  : result Exn (option Rule) :=
  match rules with
  | [] => mret None
  | r :: rules' =>
      b ← condition r state;
      if b : bool then mret (Some r) else rule_match state rules'
  end.

Definition update_state (state : State) (last_action : Action)
    (percept : Percept)
    (transition_model : State → Action → result Exn State)
    (sensor_model : Percept → State → result Exn State)
  : result Exn State :=
  (* Predict (apply dynamics from previous action) *)
  predicted ← transition_model state last_action;
  (* Correct (incorporate current percept) *)
  corrected ← sensor_model percept predicted;
  mret corrected.

(** The attributes of a [ModelBasedReflexAgent] instance.  The attribute
    [self.action] (the last action chosen) is [self_action] here, the name
    [action] being the field of [Rule]. *)
Record ModelBasedReflexAgent : Type := MkAgent {
  transition_model : State → Action → result Exn State;
  sensor_model : Percept → State → result Exn State;
  rules : list Rule;
  state : State;
  self_action : Action;
  no_op : Action
}.

Definition set_state (s : State) (a : ModelBasedReflexAgent) :=
  MkAgent (transition_model a) (sensor_model a) (rules a) s
          (self_action a) (no_op a).
Definition set_action (x : Action) (a : ModelBasedReflexAgent) :=
  MkAgent (transition_model a) (sensor_model a) (rules a) (state a)
          x (no_op a).

(** What the driver prints at each step: the four values interpolated in
    the f-string (step number, percept, action, belief state), kept as
    values and not rendered to text. *)
Definition line : Type := nat * Percept * Action * State.

(** The world of a run: one agent object and the standard output. *)
Record world : Type := MkWorld {
  self : ModelBasedReflexAgent;
  stdout : list line
}.

Definition set_self (f : ModelBasedReflexAgent → ModelBasedReflexAgent)
    (w : world) : world :=
  MkWorld (f (self w)) (stdout w).
Definition print (l : line) : Py Exn world () :=
  modify (λ w, MkWorld (self w) (stdout w ++ [l])).

(** [ModelBasedReflexAgent.perceive] *)
Definition perceive (percept : Percept) : Py Exn world Action :=
  w ← get;
  (* 1) Keep track of current state via internal model *)
  new ← call (update_state (state (self w)) (self_action (self w)) percept
                (transition_model (self w)) (sensor_model (self w)));
  modify (set_self (set_state new));;
  (* 2) Pick an action via rule matching *)
  w ← get;
  r ← call (rule_match (state (self w)) (rules (self w)));
  modify (set_self (set_action
    match r with Some r => action r | None => no_op (self w) end));;
  w ← get;
  mret (self_action (self w)).
End Core.

Arguments Rule : clear implicits.
Arguments ModelBasedReflexAgent : clear implicits.
Arguments world : clear implicits.

(** ** Construction and the driver loop *)

(** What [initial_state or {}] needs of a belief state: its truth value and
    the empty dict. *)
Class DictLike (State : Type) : Type := {
  truthy : State → bool;
  empty_dict : State
}.

Section Driver.
Context {State Action Percept Exn : Type} `{!DictLike State}.

Abbreviation Agent := (ModelBasedReflexAgent State Action Percept Exn).
Abbreviation World := (world State Action Percept Exn).

(** [ModelBasedReflexAgent.__init__].  [initial_state or {}] keeps the
    argument when it is given and truthy (a non-empty dict). *)
Definition init
    (transition_model : State → Action → result Exn State)
    (sensor_model : Percept → State → result Exn State)
    (rules : list (Rule State Action Exn))
    (initial_state : option State) (no_op : Action) : Agent :=
  MkAgent transition_model sensor_model rules
    match initial_state with
    | Some s => if truthy s then s else empty_dict
    | None => empty_dict
    end
    no_op no_op.

(** The driver's loop, [for t, z in enumerate(percepts, t): ...]. *)
Fixpoint drive (t : nat) (percepts : list Percept) : Py Exn World () :=
  match percepts with
  | [] => mret ()
  | z :: percepts' =>
      action ← perceive z;
      w ← get;
      print (t, z, action, state (self w));;
      drive (S t) percepts'
  end.

(** A program that builds one agent and feeds it [percepts], as the block
    under [if __name__ == "__main__"] does: its outcome and final world. *)
Definition run (agent : Agent) (percepts : list Percept)
  : result Exn () * World :=
  runPy (drive 1 percepts) (MkWorld agent []).
End Driver.

(** ** Belief states as shared objects

    Above, a belief state is a value and a collaborator is a function of
    values.  In Python a belief state is a dict object: [__init__] keeps a
    reference to the caller's dict, two agents built from the same
    [initial_state] share that object, and a collaborator is handed a
    reference it could mutate.  Here belief states live in a store and
    collaborators are computations over that store; the core is the same
    code.  Percepts and actions stay values: the core only passes them on. *)

(** A store of belief-state objects: which references are allocated, the
    dict a reference denotes, and the allocation of a new object. *)
Class ObjStore (Store Ref State : Type) : Type := {
  live : Store → Ref → Prop;
  view : Store → Ref → State;
  new_object : State → Store → Ref * Store
}.

Module Shared.

Section Core.
Context {Store Ref State Action Percept Exn : Type}.
Context `{!ObjStore Store Ref State} `{!DictLike State}.

(** [class Rule]: the condition is called on a reference to the state. *)
Record Rule : Type := MkRule {
  condition : Ref → Py Exn Store bool;
  action : Action
}.

Fixpoint rule_match (state : Ref) (rules : list Rule)
  : Py Exn Store (option Rule) :=
  match rules with
  | [] => mret None
  | r :: rules' =>
      b ← condition r state;
      if b : bool then mret (Some r) else rule_match state rules'
  end.

Definition update_state (state : Ref) (last_action : Action)
    (percept : Percept)
    (transition_model : Ref → Action → Py Exn Store Ref)
    (sensor_model : Percept → Ref → Py Exn Store Ref)
  : Py Exn Store Ref :=
  (* Predict (apply dynamics from previous action) *)
  predicted ← transition_model state last_action;
  (* Correct (incorporate current percept) *)
  corrected ← sensor_model percept predicted;
  mret corrected.

(** The attributes of an agent; [state] holds a reference. *)
Record ModelBasedReflexAgent : Type := MkAgent {
  transition_model : Ref → Action → Py Exn Store Ref;
  sensor_model : Percept → Ref → Py Exn Store Ref;
  rules : list Rule;
  state : Ref;
  self_action : Action;
  no_op : Action
}.

Definition set_state (s : Ref) (a : ModelBasedReflexAgent) :=
  MkAgent (transition_model a) (sensor_model a) (rules a) s
          (self_action a) (no_op a).
Definition set_action (x : Action) (a : ModelBasedReflexAgent) :=
  MkAgent (transition_model a) (sensor_model a) (rules a) (state a)
          x (no_op a).

(** The world of a run: the agent, the store of belief-state objects and the
    standard output.  A printed line shows the dict the state denotes when
    the line is printed. *)
Record world : Type := MkWorld {
  self : ModelBasedReflexAgent;
  store : Store;
  stdout : list (nat * Percept * Action * State)
}.

Definition set_self (f : ModelBasedReflexAgent → ModelBasedReflexAgent)
    (w : world) : world :=
  MkWorld (f (self w)) (store w) (stdout w).
Definition print (l : nat * Percept * Action * State) : Py Exn world () :=
  modify (λ w, MkWorld (self w) (store w) (stdout w ++ [l])).

(** A call of a collaborator: it runs on the store of the world. *)
Definition call {A} (m : Py Exn Store A) : Py Exn world A :=
  MkPy (λ w,
    (fst (runPy m (store w)),
     MkWorld (self w) (snd (runPy m (store w))) (stdout w))).

(** [ModelBasedReflexAgent.perceive] *)
Definition perceive (percept : Percept) : Py Exn world Action :=
  w ← get;
  (* 1) Keep track of current state via internal model *)
  new ← call (update_state (state (self w)) (self_action (self w)) percept
                (transition_model (self w)) (sensor_model (self w)));
  modify (set_self (set_state new));;
  (* 2) Pick an action via rule matching *)
  w ← get;
  r ← call (rule_match (state (self w)) (rules (self w)));
  modify (set_self (set_action
    match r with Some r => action r | None => no_op (self w) end));;
  w ← get;
  mret (self_action (self w)).

(** [ModelBasedReflexAgent.__init__].  [initial_state or {}] keeps the
    reference it is given when the dict is not empty, and allocates a new
    empty dict otherwise. *)
Definition init
    (transition_model : Ref → Action → Py Exn Store Ref)
    (sensor_model : Percept → Ref → Py Exn Store Ref)
    (rules : list Rule)
    (initial_state : option Ref) (no_op : Action) (h : Store)
  : ModelBasedReflexAgent * Store :=
  let fresh := new_object empty_dict h in
  match initial_state with
  | Some r =>
      if truthy (view h r)
      then (MkAgent transition_model sensor_model rules r no_op no_op, h)
      else (MkAgent transition_model sensor_model rules (fst fresh)
              no_op no_op, snd fresh)
  | None =>
      (MkAgent transition_model sensor_model rules (fst fresh) no_op no_op,
       snd fresh)
  end.

(** The driver's loop. *)
Fixpoint drive (t : nat) (percepts : list Percept) : Py Exn world () :=
  match percepts with
  | [] => mret ()
  | z :: percepts' =>
      action ← perceive z;
      w ← get;
      print (t, z, action, view (store w) (state (self w)));;
      drive (S t) percepts'
  end.

(** The replay: two agents are built from the same arguments in one store
    (so they share the object [initial_state] refers to), the percepts are
    fed to the first agent and then, in the store the first run left, to the
    second.  The outcome and final world of each run. *)
Definition replay
    (transition_model : Ref → Action → Py Exn Store Ref)
    (sensor_model : Percept → Ref → Py Exn Store Ref)
    (rules : list Rule)
    (initial_state : option Ref) (no_op : Action)
    (percepts : list Percept) (h : Store)
  : (result Exn () * world) * (result Exn () * world) :=
  let a1 := init transition_model sensor_model rules initial_state no_op h in
  let a2 :=
    init transition_model sensor_model rules initial_state no_op (snd a1) in
  let run1 := runPy (drive 1 percepts) (MkWorld (fst a1) (snd a2) []) in
  let run2 :=
    runPy (drive 1 percepts) (MkWorld (fst a2) (store (snd run1)) []) in
  (run1, run2).
End Core.

Arguments Rule : clear implicits.
Arguments ModelBasedReflexAgent : clear implicits.
Arguments world : clear implicits.

End Shared.

(** ** Python values of the vacuum world

    [Any] is cut down to the values the example handles: [None], booleans,
    strings and dicts.  A dict is a finite map from hashable values: the
    iteration order of a dict is never observed by this program and [==] on
    dicts ignores it.  No function below mutates a dict it was given (each
    one copies with [dict(...)] first), so dicts are plain values here. *)

Inductive hkey : Type :=
| KNone
| KBool (b : bool)
| KStr (s : string).

#[global] Instance hkey_eq_dec : EqDecision hkey.
Proof. solve_decision. Defined.

#[global] Instance hkey_countable : Countable hkey.
Proof.
  refine (inj_countable'
    (λ k, match k with
          | KNone => inl ()
          | KBool b => inr (inl b)
          | KStr s => inr (inr s)
          end)
    (λ x, match x with
          | inl _ => KNone
          | inr (inl b) => KBool b
          | inr (inr s) => KStr s
          end) _).
  by intros [].
Defined.

#[warnings="-register-all"] Inductive value : Type :=
| VNone
| VBool (b : bool)
| VStr (s : string)
| VDict (d : gmap hkey value).

Coercion KStr : string >-> hkey.

Inductive pyexn : Type :=
| TypeError
| KeyError
| ValueError
| AttributeError.

#[global] Instance pyexn_eq_dec : EqDecision pyexn.
Proof. solve_decision. Defined.

(** [hash(v)], as a dict does it to a key: a dict is unhashable. *)
Definition hashable (v : value) : result pyexn hkey :=
  match v with
  | VNone => Ok KNone
  | VBool b => Ok (KBool b)
  | VStr s => Ok (KStr s)
  | VDict _ => Raise TypeError
  end.

(** [v[k]]: only a dict can be subscripted by a string ([None] and booleans
    are not subscriptable, string indices must be integers); a missing key
    is a [KeyError]. *)
Definition getitem (v : value) (k : hkey) : result pyexn value :=
  match v with
  | VDict d =>
      match d !! k with
      | Some x => Ok x
      | None => Raise KeyError
      end
  | _ => Raise TypeError
  end.

(** [d.get(k, default)] on a dict. *)
Definition dict_get (d : gmap hkey value) (k : hkey) (default : value)
  : value :=
  match d !! k with
  | Some x => x
  | None => default
  end.

(** Looking up the attribute [get] of a value: of these values only dicts
    have it. *)
Definition attr_get (v : value) : result pyexn (gmap hkey value) :=
  match v with
  | VDict d => Ok d
  | _ => Raise AttributeError
  end.

(** [dict(v)]: copies a dict; [None] and booleans are not iterable; a string
    is iterated character by character, and a character is not a key-value
    pair, so only the empty string is accepted. *)
Definition dict (v : value) : result pyexn (gmap hkey value) :=
  match v with
  | VDict d => Ok d
  | VStr s => if decide (s = "") then Ok ∅ else Raise ValueError
  | VNone | VBool _ => Raise TypeError
  end.

(** [v == 'lit'] for a string literal. *)
Definition eq_str (v : value) (lit : string) : bool :=
  match v with
  | VStr s => bool_decide (s = lit)
  | _ => false
  end.

(** [v is True] *)
Definition is_True (v : value) : bool :=
  match v with
  | VBool true => true
  | _ => false
  end.

#[global] Instance dict_DictLike : DictLike (gmap hkey value) := {
  truthy d := negb (bool_decide (d = ∅));
  empty_dict := ∅
}.

(** ** The vacuum world *)

Abbreviation belief := (gmap hkey value).

(** Deterministic dynamics: moving changes location; the dirt flags are left
    alone.  [dict(state)] copies a dict and cannot raise. *)
Definition vacuum_transition_model (state : belief) (last_action : value)
  : result pyexn belief :=
  let s := state in
  let loc := dict_get s "loc" VNone in
  if eq_str last_action "LEFT" then mret (<[KStr "loc" := VStr "A"]> s)
  else if eq_str last_action "RIGHT" then mret (<[KStr "loc" := VStr "B"]> s)
  else mret s.

(** Incorporate the percept: set the location, and the dirt flag of that
    location.  In [dirty[loc] = percept['dirty']] the right-hand side is
    evaluated before [loc] is hashed. *)
Definition vacuum_sensor_model (percept : value) (predicted : belief)
  : result pyexn belief :=
  let s := predicted in
  loc ← getitem percept "loc";
  let s := <[KStr "loc" := loc]> s in
  let dirty :=
    dict_get s "dirty"
      (VDict (<[KStr "A" := VBool false]> (<[KStr "B" := VBool false]> ∅))) in
  dirty ← dict dirty;
  d ← getitem percept "dirty";
  k ← hashable loc;
  let dirty := <[k := d]> dirty in
  let s := <[KStr "dirty" := VDict dirty]> s in
  mret s.

(** The three rules of [vacuum_rules], named after the comment above the
    list.  In the first condition the attribute [get] of
    [st.get('dirty', {})] is looked up before the key [st.get('loc')] is
    hashed. *)
Definition suck_if_dirty : Rule belief value pyexn :=
  MkRule
    (λ st,
      d ← attr_get (dict_get st "dirty" (VDict ∅));
      k ← hashable (dict_get st "loc" VNone);
      mret (is_True (dict_get d k (VBool false))))
    (VStr "SUCK").

Definition right_if_at_A : Rule belief value pyexn :=
  MkRule (λ st, mret (eq_str (dict_get st "loc" VNone) "A")) (VStr "RIGHT").

Definition left_if_at_B : Rule belief value pyexn :=
  MkRule (λ st, mret (eq_str (dict_get st "loc" VNone) "B")) (VStr "LEFT").

Definition vacuum_rules : list (Rule belief value pyexn) :=
  [suck_if_dirty; right_if_at_A; left_if_at_B].

Definition vacuum_percept (loc : string) (dirty : bool) : value :=
  VDict (<[KStr "loc" := VStr loc]> (<[KStr "dirty" := VBool dirty]> ∅)).

Definition vacuum_belief (loc : string) (dirtyA dirtyB : bool) : belief :=
  <[KStr "loc" := VStr loc]>
    (<[KStr "dirty" :=
         VDict (<[KStr "A" := VBool dirtyA]> (<[KStr "B" := VBool dirtyB]> ∅))]>
       ∅).

(** The driver's agent and its percept sequence. *)
Definition demo_agent : ModelBasedReflexAgent belief value value pyexn :=
  init vacuum_transition_model vacuum_sensor_model vacuum_rules
    (Some (vacuum_belief "A" true true)) (VStr "NO-OP").

Definition demo_percepts : list value := [
  vacuum_percept "A" true;
  vacuum_percept "A" false;
  vacuum_percept "B" true;
  vacuum_percept "B" false;
  vacuum_percept "A" false
].

(** An agent of the vacuum world met in any condition: any belief state and
    any last action. *)
Definition vacuum_agent (s : belief) (a : value)
  : ModelBasedReflexAgent belief value value pyexn :=
  MkAgent vacuum_transition_model vacuum_sensor_model vacuum_rules
    s a (VStr "NO-OP").

(** ** The vacuum world over a store

    The store is a list of dict objects and a reference is an index in it.
    [dict(state)] allocates a new object and [s[k] = v] changes the object
    [s] refers to, in place.  The flags under ['dirty'] stay a value: the
    sensor model copies them with [dict(dirty)] before it sets one. *)

#[global] Instance list_store : ObjStore (list belief) nat belief := {
  live h r := r < length h;
  view h r := default ∅ (h !! r);
  new_object s h := (length h, h ++ [s])
}.

Module SharedVacuum.

(** [dict(r)]: a new object with the entries of [r]. *)
Definition copy (r : nat) : Py pyexn (list belief) nat :=
  MkPy (λ h, (Ok (fst (new_object (view h r) h)),
              snd (new_object (view h r) h))).

(** Reading the object [r] refers to. *)
Definition load (r : nat) : Py pyexn (list belief) belief :=
  MkPy (λ h, (Ok (view h r), h)).

(** [r[k] = v]: the object is changed in place. *)
Definition setitem (r : nat) (k : hkey) (v : value)
  : Py pyexn (list belief) () :=
  MkPy (λ h, (Ok (), alter (λ o : belief, <[k := v]> o) r h)).

Definition vacuum_transition_model (state : nat) (last_action : value)
  : Py pyexn (list belief) nat :=
  s ← copy state;  (* shallow copy *)
  st ← load s;
  let loc := dict_get st "loc" VNone in
  if eq_str last_action "LEFT" then
    setitem s "loc" (VStr "A");; mret s
  else if eq_str last_action "RIGHT" then
    setitem s "loc" (VStr "B");; mret s
  else mret s.

Definition vacuum_sensor_model (percept : value) (predicted : nat)
  : Py pyexn (list belief) nat :=
  s ← copy predicted;
  loc ← call (getitem percept "loc");
  setitem s "loc" loc;;
  st ← load s;
  let dirty :=
    dict_get st "dirty"
      (VDict (<[KStr "A" := VBool false]> (<[KStr "B" := VBool false]> ∅))) in
  dirty ← call (dict dirty);
  d ← call (getitem percept "dirty");
  k ← call (hashable loc);
  let dirty := <[k := d]> dirty in
  setitem s "dirty" (VDict dirty);;
  mret s.

(** A rule of the vacuum world called on a reference: its condition only
    reads the object. *)
Definition on_store (q : Rule belief value pyexn)
  : Shared.Rule (list belief) nat value pyexn :=
  Shared.MkRule (λ r, st ← load r; call (condition q st)) (action q).

Definition vacuum_rules : list (Shared.Rule (list belief) nat value pyexn) :=
  [on_store suck_if_dirty; on_store right_if_at_A; on_store left_if_at_B].

End SharedVacuum.

(** ** Vocabulary of the statements *)

Section Vocabulary.
Context {State Action Percept Exn : Type}.

Abbreviation rule := (Rule State Action Exn).
Abbreviation agent := (ModelBasedReflexAgent State Action Percept Exn).

(** The conditions of all of [rs] are false on [s] (each one returns, and
    returns [False]). *)
Definition all_false (s : State) (rs : list rule) : Prop :=
  Forall (λ q, condition q s = Ok false) rs.

(** [r] is the first rule of [rs], in list order, whose condition is true
    on [s]. *)
Definition first_true (s : State) (rs : list rule) (r : rule) : Prop :=
  ∃ pre post,
    rs = pre ++ r :: post ∧ all_false s pre ∧ condition r s = Ok true.

(** The first condition of [rs] that does not return [False] on [s] raises
    [e]. *)
Definition first_raises (s : State) (rs : list rule) (e : Exn) : Prop :=
  ∃ pre r post,
    rs = pre ++ r :: post ∧ all_false s pre ∧ condition r s = Raise e.

(** The action [perceive] chooses from the outcome of the match. *)
Definition chosen (m : option rule) (no_op : Action) : Action :=
  match m with
  | Some r => action r
  | None => no_op
  end.
End Vocabulary.

(** Collaborators over a store that are deterministic and pure: what they
    return is a function of the dicts they are given, and they leave every
    allocated object as it is (they may allocate). *)
Section SharedVocabulary.
Context {Store Ref State Action Percept Exn : Type}.
Context `{!ObjStore Store Ref State}.

(** Every object allocated in [h] is allocated in [h'] and denotes the same
    dict there. *)
Definition preserves (h h' : Store) : Prop :=
  ∀ r, live h r → live h' r ∧ view h' r = view h r.

(** Allocation returns a reference to the dict asked for and leaves the
    allocated objects as they are. *)
Definition allocates : Prop :=
  ∀ (s : State) (h : Store),
    preserves h (snd (new_object s h)) ∧
    live (snd (new_object s h)) (fst (new_object s h)) ∧
    view (snd (new_object s h)) (fst (new_object s h)) = s.

(** [Th] computes the function [T] of the dict its argument denotes. *)
Definition pure_transition (Th : Ref → Action → Py Exn Store Ref)
    (T : State → Action → result Exn State) : Prop :=
  ∀ h r x, live h r →
    preserves h (snd (runPy (Th r x) h)) ∧
    match fst (runPy (Th r x) h) with
    | Ok r' =>
        live (snd (runPy (Th r x) h)) r' ∧
        T (view h r) x = Ok (view (snd (runPy (Th r x) h)) r')
    | Raise e => T (view h r) x = Raise e
    end.

Definition pure_sensor (Sh : Percept → Ref → Py Exn Store Ref)
    (S : Percept → State → result Exn State) : Prop :=
  ∀ h p r, live h r →
    preserves h (snd (runPy (Sh p r) h)) ∧
    match fst (runPy (Sh p r) h) with
    | Ok r' =>
        live (snd (runPy (Sh p r) h)) r' ∧
        S p (view h r) = Ok (view (snd (runPy (Sh p r) h)) r')
    | Raise e => S p (view h r) = Raise e
    end.

Definition pure_rule (rh : Shared.Rule Store Ref Action Exn)
    (r : Rule State Action Exn) : Prop :=
  Shared.action rh = action r ∧
  ∀ h x, live h x →
    preserves h (snd (runPy (Shared.condition rh x) h)) ∧
    fst (runPy (Shared.condition rh x) h) = condition r (view h x).

(** An agent over the store and an agent over values that stand for each
    other in the store [h]. *)
Record stands_for (h : Store)
    (ah : Shared.ModelBasedReflexAgent Store Ref Action Percept Exn)
    (a : ModelBasedReflexAgent State Action Percept Exn) : Prop := {
  stands_transition :
    pure_transition (Shared.transition_model ah) (transition_model a);
  stands_sensor : pure_sensor (Shared.sensor_model ah) (sensor_model a);
  stands_rules : Forall2 pure_rule (Shared.rules ah) (rules a);
  stands_live : live h (Shared.state ah);
  stands_state : view h (Shared.state ah) = state a;
  stands_action : Shared.self_action ah = self_action a;
  stands_no_op : Shared.no_op ah = no_op a
}.
End SharedVocabulary.

(** A percept of the vacuum world: a dict whose ['loc'] is ['A'] or ['B'] and
    whose ['dirty'] is a boolean. *)
Definition vacuum_percept_ok (percept : value) (loc : string) (dirty : bool)
  : Prop :=
  ∃ d, percept = VDict d ∧ d !! KStr "loc" = Some (VStr loc) ∧
       (loc = "A" ∨ loc = "B") ∧ d !! KStr "dirty" = Some (VBool dirty).

(** The ['dirty'] entry of a belief state, when there is one, is a value that
    [dict(...)] accepts; every dict is. *)
Definition dirty_copyable (s : belief) : Prop :=
  ∀ v, s !! KStr "dirty" = Some v → ∃ d, dict v = Ok d.

(** The action the three rules give for a location and its dirt flag. *)
Definition vacuum_move (loc : string) (dirty : bool) : value :=
  if dirty then VStr "SUCK"
  else if bool_decide (loc = "A") then VStr "RIGHT" else VStr "LEFT".

(** [perceive], called on a vacuum agent with belief [s] and last action [a],
    returns one of the three moves. *)
Definition returns_a_move (s : belief) (a percept : value) : Prop :=
  ∃ act w',
    runPy (perceive percept) (MkWorld (vacuum_agent s a) []) = (Ok act, w') ∧
    (act = VStr "SUCK" ∨ act = VStr "RIGHT" ∨ act = VStr "LEFT") ∧
    act ≠ VStr "NO-OP".

(** ** Vocabulary of the further statements *)

Section MoreVocabulary.
Context {State Action Percept Exn : Type}.

(** The condition of [r] returns [True] on [s]. *)
Definition holds (s : State) (r : Rule State Action Exn) : bool :=
  match condition r s with
  | Ok true => true
  | _ => false
  end.

(** [act] is what the rules [rs] give on the belief state [st]: the action
    of a rule of the list whose condition is true on [st], or the no-op when
    every condition is false. *)
Definition justified (rs : list (Rule State Action Exn)) (no_op : Action)
    (st : State) (act : Action) : Prop :=
  (act = no_op ∧ all_false st rs) ∨
  (∃ r, r ∈ rs ∧ action r = act ∧ condition r st = Ok true).

(** The step number and the percept of a printed line, its action, and its
    belief state. *)
Definition line_input (l : @line State Action Percept) : nat * Percept :=
  (l.1.1.1, l.1.1.2).
Definition line_action (l : @line State Action Percept) : Action := l.1.2.
Definition line_state (l : @line State Action Percept) : State := l.2.
End MoreVocabulary.

(** What the sensor model reads in a percept: a dict with a hashable ['loc']
    (of key [k]) and a ['dirty'] entry. *)
Definition readable_percept (percept loc : value) (k : hkey) (v : value)
  : Prop :=
  ∃ d, percept = VDict d ∧ d !! KStr "loc" = Some loc ∧
       hashable loc = Ok k ∧ d !! KStr "dirty" = Some v.

(** The dirt flags the sensor model starts from: the ['dirty'] entry of the
    predicted state, or all clean when there is none. *)
Definition believed_dirt (s : belief) : value :=
  dict_get s "dirty"
    (VDict (<[KStr "A" := VBool false]> (<[KStr "B" := VBool false]> ∅))).

(** The belief state after sensing [v] at [loc] over the dirt flags [old]. *)
Definition sensed (s : belief) (loc : value) (k : hkey) (v : value)
    (old : gmap hkey value) : belief :=
  <[KStr "dirty" := VDict (<[k := v]> old)]> (<[KStr "loc" := loc]> s).

(** The action the three rules give for any sensed location and dirt value,
    the no-op included. *)
Definition vacuum_choice (loc v : value) : value :=
  if is_True v then VStr "SUCK"
  else if eq_str loc "A" then VStr "RIGHT"
  else if eq_str loc "B" then VStr "LEFT"
  else VStr "NO-OP".

(** * Running a computation *)

Lemma runPy_bind {E W A B} (m : Py E W A) (f : A → Py E W B) (w : W) :
  runPy (m ≫= f) w =
    match runPy m w with
    | (Ok a, w') => runPy (f a) w'
    | (Raise e, w') => (Raise e, w')
    end.
Proof. reflexivity. Qed.

Lemma runPy_mret {E W A} (a : A) (w : W) :
  runPy (mret a : Py E W A) w = (Ok a, w).
Proof. reflexivity. Qed.

(** * Properties of the core *)

Section CoreProperties.
Context {State Action Percept Exn : Type}.

Implicit Types (s : State) (r : Rule State Action Exn)
  (rs : list (Rule State Action Exn))
  (w : world State Action Percept Exn).

Lemma bind_Ok {A B} (f : A → result Exn B) (a : A) : (Ok a ≫= f) = f a.
Proof. reflexivity. Qed.

Lemma bind_Raise {A B} (f : A → result Exn B) (e : Exn) :
  (Raise e ≫= f) = Raise e.
Proof. reflexivity. Qed.

Lemma bind_mret {A} (m : result Exn A) : (m ≫= mret) = m.
Proof. by destruct m. Qed.

(** *** [rule_match] *)

Lemma rule_match_cons_true s r rs :
  condition r s = Ok true → rule_match s (r :: rs) = Ok (Some r).
Proof. intros H. cbn [rule_match]. by rewrite H. Qed.

Lemma rule_match_cons_false s r rs :
  condition r s = Ok false → rule_match s (r :: rs) = rule_match s rs.
Proof. intros H. cbn [rule_match]. by rewrite H. Qed.

Lemma rule_match_cons_raise s r rs e :
  condition r s = Raise e → rule_match s (r :: rs) = Raise e.
Proof. intros H. cbn [rule_match]. by rewrite H. Qed.

Lemma rule_match_skip s pre rs :
  all_false s pre → rule_match s (pre ++ rs) = rule_match s rs.
Proof.
  induction 1 as [|q pre Hq _ IH]; [done|].
  rewrite <- app_comm_cons, rule_match_cons_false; auto.
Qed.

Lemma rule_match_Some s rs r :
  rule_match s rs = Ok (Some r) ↔ first_true s rs r.
Proof.
  split.
  - induction rs as [|q rs IH]; [done|].
    destruct (condition q s) as [[|]|e] eqn:Hq.
    + rewrite (rule_match_cons_true _ _ _ Hq). intros [= <-].
      exists [], rs. repeat split; [constructor | done].
    + rewrite (rule_match_cons_false _ _ _ Hq). intros Hm.
      destruct (IH Hm) as (pre & post & -> & Hpre & Hr).
      exists (q :: pre), post. repeat split; [by constructor | done].
    + by rewrite (rule_match_cons_raise _ _ _ _ Hq).
  - intros (pre & post & -> & Hpre & Hr).
    rewrite rule_match_skip by done. by apply rule_match_cons_true.
Qed.

Lemma rule_match_None s rs :
  rule_match s rs = Ok None ↔ all_false s rs.
Proof.
  split.
  - induction rs as [|q rs IH]; [constructor|].
    destruct (condition q s) as [[|]|e] eqn:Hq.
    + by rewrite (rule_match_cons_true _ _ _ Hq).
    + rewrite (rule_match_cons_false _ _ _ Hq). intros Hm.
      apply Forall_cons_2; [exact Hq | exact (IH Hm)].
    + by rewrite (rule_match_cons_raise _ _ _ _ Hq).
  - intros H. rewrite <- (app_nil_r rs). by rewrite rule_match_skip.
Qed.

Lemma rule_match_Raise s rs e :
  rule_match s rs = Raise e ↔ first_raises s rs e.
Proof.
  split.
  - induction rs as [|q rs IH]; [done|].
    destruct (condition q s) as [[|]|e'] eqn:Hq.
    + by rewrite (rule_match_cons_true _ _ _ Hq).
    + rewrite (rule_match_cons_false _ _ _ Hq). intros Hm.
      destruct (IH Hm) as (pre & r & post & -> & Hpre & Hr).
      exists (q :: pre), r, post. repeat split; [by constructor | done].
    + rewrite (rule_match_cons_raise _ _ _ _ Hq). intros [= <-].
      exists [], q, rs. repeat split; [constructor | done].
  - intros (pre & r & post & -> & Hpre & Hr).
    rewrite rule_match_skip by done. by apply rule_match_cons_raise.
Qed.

(** C3.  For every belief state and rule list, [rule_match] returns a rule
    exactly when that rule is the first one, in list order, whose condition
    is true; it returns [None] exactly when every condition is false; and
    it never raises by itself: an exception out of [rule_match] is the
    exception of a condition that raised before any condition was true. *)
Theorem rule_match_first_true s rs :
  (∀ r, rule_match s rs = Ok (Some r) ↔ first_true s rs r) ∧
  (rule_match s rs = Ok None ↔ all_false s rs) ∧
  (∀ e, rule_match s rs = Raise e ↔ first_raises s rs e).
Proof.
  split; [|split].
  - intros r. apply rule_match_Some.
  - apply rule_match_None.
  - intros e. apply rule_match_Raise.
Qed.

(** C5.  First in order wins: when the conditions of [r1] and [r2] are both
    true on [s], a list beginning with [r1; r2] matches [r1] and the list
    with the two swapped matches [r2], so the outcome changes whenever the
    two rules differ. *)
Theorem rule_match_first_wins s r1 r2 rs :
  condition r1 s = Ok true →
  condition r2 s = Ok true →
  rule_match s (r1 :: r2 :: rs) = Ok (Some r1) ∧
  rule_match s (r2 :: r1 :: rs) = Ok (Some r2) ∧
  (r1 ≠ r2 → rule_match s (r1 :: r2 :: rs) ≠ rule_match s (r2 :: r1 :: rs)) ∧
  (action r1 ≠ action r2 →
   ∀ no_op : Action,
     chosen (Some r1) no_op ≠ chosen (Some r2) no_op).
Proof.
  intros H1 H2.
  rewrite (rule_match_cons_true _ _ _ H1), (rule_match_cons_true _ _ _ H2).
  repeat split; [congruence | done].
Qed.
End CoreProperties.

Section AgentProperties.
Context {State Action Percept Exn : Type}.

Implicit Types (s : State) (x : Action) (percept : Percept) (e : Exn)
  (a : ModelBasedReflexAgent State Action Percept Exn)
  (w : world State Action Percept Exn).

(** *** [update_state] *)

(** The two phases, in order. *)
Lemma update_state_phases s x percept
    (T : State → Action → result Exn State)
    (S : Percept → State → result Exn State) :
  update_state s x percept T S =
    match T s x with
    | Ok predicted => S percept predicted
    | Raise e => Raise e
    end.
Proof.
  unfold update_state. destruct (T s x) as [predicted|e]; [|done].
  rewrite bind_Ok. apply bind_mret.
Qed.

(** C2.  [update_state] is the sensor model applied to the percept and to
    the state predicted by the transition model from the state and the last
    action alone.  When the prediction raises, the sensor model is not
    consulted, whatever the percept; for models that always return, the
    result is [S(percept, T(state, last_action))]. *)
Theorem update_state_predict_then_correct s x percept
    (T : State → Action → result Exn State)
    (S : Percept → State → result Exn State) :
  update_state s x percept T S =
    match T s x with
    | Ok predicted => S percept predicted
    | Raise e => Raise e
    end ∧
  ∀ (f : State → Action → State) (g : Percept → State → State),
    update_state (Exn := Exn) s x percept
      (λ s x, Ok (f s x)) (λ p s, Ok (g p s)) =
      Ok (g percept (f s x)).
Proof. split; [apply update_state_phases | done]. Qed.

(** *** [perceive] *)

(** The three ways a call of [perceive] can end. *)
Lemma perceive_run percept w :
  runPy (perceive percept) w =
    match update_state (state (self w)) (self_action (self w)) percept
            (transition_model (self w)) (sensor_model (self w)) with
    | Raise e => (Raise e, w)
    | Ok new =>
        match rule_match new (rules (self w)) with
        | Raise e => (Raise e, set_self (set_state new) w)
        | Ok m =>
            (Ok (chosen m (no_op (self w))),
             set_self (set_action (chosen m (no_op (self w))))
               (set_self (set_state new) w))
        end
    end.
Proof.
  unfold perceive. cbn.
  destruct (update_state _ _ _ _ _) as [new|e]; [|done]. cbn.
  destruct (rule_match _ _) as [m|e]; done.
Qed.

(** C1.  When the update yields [new] and the match on [new] yields [m],
    [perceive] ends with [new] as the belief state, with the action of the
    matched rule, or the no-op when no rule matched, stored as the last
    action, and returns that action. *)
Theorem perceive_update_match_store percept w new m :
  update_state (state (self w)) (self_action (self w)) percept
    (transition_model (self w)) (sensor_model (self w)) = Ok new →
  rule_match new (rules (self w)) = Ok m →
  runPy (perceive percept) w =
    (Ok (chosen m (no_op (self w))),
     MkWorld
       (MkAgent (transition_model (self w)) (sensor_model (self w))
          (rules (self w)) new (chosen m (no_op (self w))) (no_op (self w)))
       (stdout w)).
Proof. intros Hu Hm. by rewrite perceive_run, Hu, Hm. Qed.

(** C8.  When the transition model raises, or the sensor model raises on
    the predicted state, [perceive] raises that same exception and the
    agent is exactly as before the call. *)
Theorem perceive_model_raises percept w e :
  transition_model (self w) (state (self w)) (self_action (self w))
    = Raise e ∨
  (∃ predicted,
     transition_model (self w) (state (self w)) (self_action (self w))
       = Ok predicted ∧
     sensor_model (self w) percept predicted = Raise e) →
  runPy (perceive percept) w = (Raise e, w).
Proof.
  intros H. rewrite perceive_run.
  rewrite update_state_phases.
  destruct H as [-> | (predicted & -> & ->)]; done.
Qed.

(** C9.  Whatever the outcome of [perceive], the transition model, the
    sensor model, the rule list and the no-op of the agent are the ones
    from before the call, and nothing was printed. *)
Theorem perceive_frame percept w :
  let w' := snd (runPy (perceive percept) w) in
  transition_model (self w') = transition_model (self w) ∧
  sensor_model (self w') = sensor_model (self w) ∧
  rules (self w') = rules (self w) ∧
  no_op (self w') = no_op (self w) ∧
  stdout w' = stdout w.
Proof.
  rewrite perceive_run.
  destruct (update_state _ _ _ _ _) as [new|e]; [|done].
  destruct (rule_match _ _) as [m|e]; done.
Qed.
End AgentProperties.

(** *** Replaying a percept sequence in a shared store *)

Section Replay.
Context {Store Ref State Action Percept Exn : Type}.
Context `{!ObjStore Store Ref State} `{!DictLike State}.

Implicit Types (h : Store) (r : Ref) (x : Action) (percept : Percept)
  (wh : Shared.world Store Ref State Action Percept Exn)
  (w : world State Action Percept Exn).

Lemma preserves_refl h : preserves h h.
Proof. by intros r Hr. Qed.

Lemma preserves_trans h1 h2 h3 :
  preserves h1 h2 → preserves h2 h3 → preserves h1 h3.
Proof.
  intros H12 H23 r Hr. destruct (H12 r Hr) as [Hr2 E2].
  destruct (H23 r Hr2) as [Hr3 E3]. split; [done|]. by rewrite E3.
Qed.

Lemma stands_for_preserved h h' ah (a : ModelBasedReflexAgent State Action Percept Exn) :
  preserves h h' → stands_for h ah a → stands_for h' ah a.
Proof.
  intros Hp []. destruct (Hp _ stands_live0) as [Hl Hv].
  split; try done. by rewrite Hv.
Qed.

(** The update over the store computes the update over values. *)
Lemma update_state_pure
    (Th : Ref → Action → Py Exn Store Ref)
    (Sh : Percept → Ref → Py Exn Store Ref)
    (T : State → Action → result Exn State)
    (S : Percept → State → result Exn State) h r x percept :
  pure_transition Th T → pure_sensor Sh S → live h r →
  preserves h (snd (runPy (Shared.update_state r x percept Th Sh) h)) ∧
  match fst (runPy (Shared.update_state r x percept Th Sh) h) with
  | Ok r' =>
      live (snd (runPy (Shared.update_state r x percept Th Sh) h)) r' ∧
      update_state (view h r) x percept T S =
        Ok (view (snd (runPy (Shared.update_state r x percept Th Sh) h)) r')
  | Raise e => update_state (view h r) x percept T S = Raise e
  end.
Proof.
  intros HT HS Hr. rewrite update_state_phases.
  unfold Shared.update_state. rewrite runPy_bind.
  destruct (HT h r x Hr) as [Hp1 H1].
  destruct (runPy (Th r x) h) as [[r1|e] h1]; cbn [fst snd] in *.
  2:{ by rewrite H1. }
  destruct H1 as [Hr1 ->]. rewrite runPy_bind.
  destruct (HS h1 percept r1 Hr1) as [Hp2 H2].
  destruct (runPy (Sh percept r1) h1) as [[r2|e] h2]; cbn [fst snd] in *.
  - rewrite runPy_mret. cbn [fst snd]. split; [by eapply preserves_trans|].
    done.
  - split; [by eapply preserves_trans | done].
Qed.

(** The match over the store computes the match over values. *)
Lemma rule_match_pure (rsh : list (Shared.Rule Store Ref Action Exn))
    (rs : list (Rule State Action Exn)) (n : Action) :
  Forall2 pure_rule rsh rs → ∀ h r, live h r →
  preserves h (snd (runPy (Shared.rule_match r rsh) h)) ∧
  match fst (runPy (Shared.rule_match r rsh) h) with
  | Ok mh =>
      ∃ m, rule_match (view h r) rs = Ok m ∧
           match mh with Some q => Shared.action q | None => n end =
             chosen m n
  | Raise e => rule_match (view h r) rs = Raise e
  end.
Proof.
  induction 1 as [|qh q rsh rs [Hact Hcond] _ IH]; intros h r Hr.
  { cbn [Shared.rule_match]. rewrite runPy_mret. cbn [fst snd].
    split; [apply preserves_refl|]. by exists None. }
  cbn [Shared.rule_match]. rewrite runPy_bind.
  destruct (Hcond h r Hr) as [Hp1 H1].
  destruct (runPy (Shared.condition qh r) h) as [[b|e] h1];
    cbn [fst snd] in *; symmetry in H1.
  2:{ split; [done|]. by apply rule_match_cons_raise. }
  destruct b.
  - rewrite runPy_mret. cbn [fst snd]. split; [done|].
    exists (Some q). split; [by apply rule_match_cons_true | done].
  - destruct (Hp1 r Hr) as [Hr1 Hv1].
    destruct (IH h1 r Hr1) as [Hp2 H2]. rewrite Hv1 in H2.
    split; [by eapply preserves_trans|].
    by rewrite (rule_match_cons_false _ _ _ H1).
Qed.

(** The three ways a call of [perceive] over the store can end. *)
Lemma shared_perceive_run percept wh :
  runPy (Shared.perceive percept) wh =
    let u :=
      runPy (Shared.update_state (Shared.state (Shared.self wh))
               (Shared.self_action (Shared.self wh)) percept
               (Shared.transition_model (Shared.self wh))
               (Shared.sensor_model (Shared.self wh))) (Shared.store wh) in
    match fst u with
    | Raise e =>
        (Raise e, Shared.MkWorld (Shared.self wh) (snd u) (Shared.stdout wh))
    | Ok new =>
        let m :=
          runPy (Shared.rule_match new (Shared.rules (Shared.self wh)))
            (snd u) in
        match fst m with
        | Raise e =>
            (Raise e,
             Shared.MkWorld (Shared.set_state new (Shared.self wh)) (snd m)
               (Shared.stdout wh))
        | Ok mh =>
            let act :=
              match mh with
              | Some q => Shared.action q
              | None => Shared.no_op (Shared.self wh)
              end in
            (Ok act,
             Shared.MkWorld
               (Shared.set_action act
                  (Shared.set_state new (Shared.self wh)))
               (snd m) (Shared.stdout wh))
        end
    end.
Proof.
  unfold Shared.perceive. cbn.
  destruct (runPy (Shared.update_state _ _ _ _ _) _) as [[new|e] h1];
    [|done]. cbn.
  by destruct (runPy (Shared.rule_match _ _) _) as [[mh|e] h2].
Qed.

(** One call of [perceive] over the store and one over values, from worlds
    that stand for each other: the same outcome, worlds that stand for each
    other, and every allocated object kept. *)
Lemma perceive_stands percept wh w :
  stands_for (Shared.store wh) (Shared.self wh) (self w) →
  Shared.stdout wh = stdout w →
  fst (runPy (Shared.perceive percept) wh) = fst (runPy (perceive percept) w) ∧
  stands_for (Shared.store (snd (runPy (Shared.perceive percept) wh)))
    (Shared.self (snd (runPy (Shared.perceive percept) wh)))
    (self (snd (runPy (perceive percept) w))) ∧
  Shared.stdout (snd (runPy (Shared.perceive percept) wh)) =
    stdout (snd (runPy (perceive percept) w)) ∧
  preserves (Shared.store wh)
    (Shared.store (snd (runPy (Shared.perceive percept) wh))).
Proof.
  intros Ha Hout. rewrite shared_perceive_run, perceive_run. cbn zeta.
  destruct (update_state_pure _ _ _ _ (Shared.store wh)
              (Shared.state (Shared.self wh))
              (Shared.self_action (Shared.self wh)) percept
              (stands_transition _ _ _ Ha) (stands_sensor _ _ _ Ha)
              (stands_live _ _ _ Ha)) as [Hp1 H1].
  destruct (runPy (Shared.update_state _ _ _ _ _) _) as [[new|e] h1];
    cbn [fst snd] in *;
    rewrite (stands_state _ _ _ Ha), (stands_action _ _ _ Ha) in H1.
  2:{ rewrite H1. cbn [fst snd Shared.store Shared.self Shared.stdout].
      split; [done|]. split; [by eapply stands_for_preserved|]. done. }
  destruct H1 as [Hnew ->].
  destruct (rule_match_pure _ _ (no_op (self w)) (stands_rules _ _ _ Ha)
              h1 new Hnew) as [Hp2 H2].
  rewrite (stands_no_op _ _ _ Ha).
  assert (stands_for h1 (Shared.self wh) (self w)) as Ha1
    by by eapply stands_for_preserved.
  destruct (runPy (Shared.rule_match _ _) _) as [[mh|e] h2];
    cbn [fst snd] in *.
  - destruct H2 as (m & -> & Hact). rewrite Hact.
    cbn [fst snd Shared.store Shared.self Shared.stdout self stdout].
    split; [done|]. split; [|split; [done | by eapply preserves_trans]].
    destruct Ha1. destruct (Hp2 new Hnew) as [Hl Hv]. by split.
  - rewrite H2.
    cbn [fst snd Shared.store Shared.self Shared.stdout self stdout].
    split; [done|]. split; [|split; [done | by eapply preserves_trans]].
    destruct Ha1. destruct (Hp2 new Hnew) as [Hl Hv]. by split.
Qed.
(** The loop over the store and the loop over values, from worlds that
    stand for each other. *)
Lemma drive_stands (ps : list Percept) : ∀ t wh w,
  stands_for (Shared.store wh) (Shared.self wh) (self w) →
  Shared.stdout wh = stdout w →
  fst (runPy (Shared.drive t ps) wh) = fst (runPy (drive t ps) w) ∧
  stands_for (Shared.store (snd (runPy (Shared.drive t ps) wh)))
    (Shared.self (snd (runPy (Shared.drive t ps) wh)))
    (self (snd (runPy (drive t ps) w))) ∧
  Shared.stdout (snd (runPy (Shared.drive t ps) wh)) =
    stdout (snd (runPy (drive t ps) w)) ∧
  preserves (Shared.store wh)
    (Shared.store (snd (runPy (Shared.drive t ps) wh))).
Proof.
  induction ps as [|z ps IH]; intros t wh w Ha Hout.
  { cbn [Shared.drive drive]. rewrite !runPy_mret. cbn [fst snd].
    exact (conj eq_refl (conj Ha (conj Hout (preserves_refl _)))). }
  cbn [Shared.drive drive]. rewrite !runPy_bind.
  destruct (perceive_stands z wh w Ha Hout) as (Hres & Ha1 & Hout1 & Hp1).
  destruct (runPy (Shared.perceive z) wh) as [[xh|e] wh1],
           (runPy (perceive z) w) as [[x|e'] w1];
    cbn [fst snd] in *; try discriminate Hres.
  2:{ injection Hres as ->.
      exact (conj eq_refl (conj Ha1 (conj Hout1 Hp1))). }
  injection Hres as ->. cbn -[Shared.drive drive].
  match goal with
  | |- context [runPy (Shared.drive (S t) ps) ?wh2] =>
      match goal with
      | |- context [runPy (drive (S t) ps) ?w2] =>
          destruct (IH (S t) wh2 w2) as (Hres2 & Ha2 & Hout2 & Hp2)
      end
  end.
  - exact Ha1.
  - cbn. by rewrite Hout1, (stands_state _ _ _ Ha1).
  - split; [done|]. split; [done|]. split; [done|].
    by eapply preserves_trans.
Qed.

(** Construction over the store and over values. *)
Lemma init_stands
    (Th : Ref → Action → Py Exn Store Ref)
    (Sh : Percept → Ref → Py Exn Store Ref)
    (rsh : list (Shared.Rule Store Ref Action Exn))
    (T : State → Action → result Exn State)
    (S : Percept → State → result Exn State)
    (rs : list (Rule State Action Exn))
    (initial_state : option Ref) (n : Action) h :
  allocates →
  pure_transition Th T → pure_sensor Sh S → Forall2 pure_rule rsh rs →
  (∀ r, initial_state = Some r → live h r) →
  stands_for (snd (Shared.init Th Sh rsh initial_state n h))
    (fst (Shared.init Th Sh rsh initial_state n h))
    (init T S rs (view h <$> initial_state) n) ∧
  preserves h (snd (Shared.init Th Sh rsh initial_state n h)).
Proof.
  intros Hnew HT HS Hrs Hlive.
  destruct (Hnew empty_dict h) as (Hp & Hl & Hv).
  unfold Shared.init, init.
  destruct initial_state as [r|]; cbn [fmap option_fmap option_map].
  - destruct (truthy (view h r)); cbn [fst snd].
    + split; [|apply preserves_refl]. split; try done. by apply Hlive.
    + split; [|done]. by split.
  - cbn [fst snd]. split; [|done]. by split.
Qed.

(** C6.  Two agents are built from the same collaborators, the same initial
    belief state (the same object, when one is given) and the same no-op,
    in one store; a percept sequence is fed to the first and then, in the
    store the first run left, to the second.  When the collaborators are
    deterministic and pure (each computes a function of the dict it is given
    and leaves every allocated object as it is), the two runs end the same
    way, print the same lines (the same actions, the same belief states
    step by step) and finish with the same belief state and the same last
    action; and they are the outcome, lines and final state of the run over
    values of an agent built from the functions the collaborators
    compute. *)
Theorem replay_in_shared_store
    (Th : Ref → Action → Py Exn Store Ref)
    (Sh : Percept → Ref → Py Exn Store Ref)
    (rsh : list (Shared.Rule Store Ref Action Exn))
    (T : State → Action → result Exn State)
    (S : Percept → State → result Exn State)
    (rs : list (Rule State Action Exn))
    (initial_state : option Ref) (n : Action)
    (percepts : list Percept) h :
  allocates →
  pure_transition Th T → pure_sensor Sh S → Forall2 pure_rule rsh rs →
  (∀ r, initial_state = Some r → live h r) →
  let run1 := fst (Shared.replay Th Sh rsh initial_state n percepts h) in
  let run2 := snd (Shared.replay Th Sh rsh initial_state n percepts h) in
  let final := Shared.store (snd run2) in
  let values := run (init T S rs (view h <$> initial_state) n) percepts in
  (fst run1 = fst run2 ∧
   Shared.stdout (snd run1) = Shared.stdout (snd run2) ∧
   view final (Shared.state (Shared.self (snd run1))) =
     view final (Shared.state (Shared.self (snd run2))) ∧
   Shared.self_action (Shared.self (snd run1)) =
     Shared.self_action (Shared.self (snd run2))) ∧
  (fst run1 = fst values ∧
   Shared.stdout (snd run1) = stdout (snd values) ∧
   view final (Shared.state (Shared.self (snd run1))) =
     state (self (snd values)) ∧
   Shared.self_action (Shared.self (snd run1)) =
     self_action (self (snd values))).
Proof.
  intros Hnew HT HS Hrs Hlive. unfold Shared.replay, run. cbn zeta.
  cbn [fst snd].
  set (i1 := Shared.init Th Sh rsh initial_state n h).
  destruct (init_stands Th Sh rsh T S rs initial_state n h
              Hnew HT HS Hrs Hlive) as [Ha1 Hp1]. fold i1 in Ha1, Hp1.
  set (i2 := Shared.init Th Sh rsh initial_state n (snd i1)).
  destruct (init_stands Th Sh rsh T S rs initial_state n (snd i1)
              Hnew HT HS Hrs) as [Ha2 Hp2].
  { intros r Hr. by apply Hp1, Hlive. }
  fold i2 in Ha2, Hp2.
  assert (view (snd i1) <$> initial_state = view h <$> initial_state) as Hi.
  { destruct initial_state as [r|]; [|done]. cbn.
    f_equal. by apply Hp1, Hlive. }
  rewrite Hi in Ha2.
  set (a := init T S rs (view h <$> initial_state) n) in *.
  set (wh1 := Shared.MkWorld (fst i1) (snd i2) []).
  destruct (drive_stands percepts 1 wh1 (MkWorld a []))
    as (Hres1 & Hs1 & Hout1 & Hq1).
  { by eapply stands_for_preserved. }
  { done. }
  set (r1 := runPy (Shared.drive 1 percepts) wh1) in *.
  set (wh2 := Shared.MkWorld (fst i2) (Shared.store (snd r1)) []).
  destruct (drive_stands percepts 1 wh2 (MkWorld a []))
    as (Hres2 & Hs2 & Hout2 & Hq2).
  { by eapply stands_for_preserved. }
  { done. }
  set (r2 := runPy (Shared.drive 1 percepts) wh2) in *.
  assert (view (Shared.store (snd r2)) (Shared.state (Shared.self (snd r1)))
          = state (self (snd (runPy (drive 1 percepts) (MkWorld a [])))))
    as Hv1.
  { rewrite <- (stands_state _ _ _ Hs1).
    by apply Hq2, (stands_live _ _ _ Hs1). }
  split; (split; [|split; [|split]]).
  - by rewrite Hres1, Hres2.
  - by rewrite Hout1, Hout2.
  - by rewrite Hv1, (stands_state _ _ _ Hs2).
  - by rewrite (stands_action _ _ _ Hs1), (stands_action _ _ _ Hs2).
  - exact Hres1.
  - exact Hout1.
  - exact Hv1.
  - exact (stands_action _ _ _ Hs1).
Qed.
End Replay.

(** *** The vacuum collaborators over the store are pure *)

Section SharedVacuumProperties.
Implicit Types (h : list belief) (r : nat) (g s : belief) (a percept : value).

Lemma list_store_allocates : allocates (Store := list belief).
Proof.
  intros s h. cbn. split; [|split].
  - intros r Hr. cbn in *. rewrite length_app. split; [lia|].
    by rewrite lookup_app_l.
  - rewrite length_app. cbn. lia.
  - by rewrite list_lookup_middle.
Qed.

(** A store with one more object keeps the others. *)
Lemma preserves_snoc h g : preserves h (h ++ [g]).
Proof. exact (proj1 (list_store_allocates g h)). Qed.

Lemma live_snoc h g : live (h ++ [g]) (length h).
Proof. exact (proj1 (proj2 (list_store_allocates g h))). Qed.

Lemma view_snoc h g : view (h ++ [g]) (length h) = g.
Proof. exact (proj2 (proj2 (list_store_allocates g h))). Qed.

Lemma copy_run r h :
  runPy (SharedVacuum.copy r) h = (Ok (length h), h ++ [view h r]).
Proof. reflexivity. Qed.

Lemma load_run r h : runPy (SharedVacuum.load r) h = (Ok (view h r), h).
Proof. reflexivity. Qed.

(** Setting an entry of the newest object touches that object only. *)
Lemma setitem_run h g (k : hkey) (v : value) :
  runPy (SharedVacuum.setitem (length h) k v) (h ++ [g]) =
    (Ok (), h ++ [<[k := v]> g]).
Proof.
  unfold SharedVacuum.setitem. cbn [runPy]. f_equal.
  by rewrite alter_app_r_alt, Nat.sub_diag by lia.
Qed.

Lemma call_run {A} (res : result pyexn A) h :
  runPy (call res) h = (res, h).
Proof. reflexivity. Qed.

(** The transition model over the store allocates the state the transition
    model over values returns, and touches nothing else. *)
Lemma shared_vacuum_transition_run r a h :
  ∃ s',
    vacuum_transition_model (view h r) a = Ok s' ∧
    runPy (SharedVacuum.vacuum_transition_model r a) h =
      (Ok (length h), h ++ [s']).
Proof.
  unfold SharedVacuum.vacuum_transition_model, vacuum_transition_model.
  rewrite runPy_bind, copy_run, runPy_bind, load_run.
  destruct (eq_str a "LEFT"); [|destruct (eq_str a "RIGHT")];
    eexists; (split; [reflexivity|]);
    by rewrite ?runPy_bind, ?setitem_run, ?runPy_mret.
Qed.

(** The sensor model over the store: one new object, and the outcome of
    the sensor model over values. *)
Lemma shared_vacuum_sensor_run percept r h :
  ∃ g,
    snd (runPy (SharedVacuum.vacuum_sensor_model percept r) h) = h ++ [g] ∧
    match vacuum_sensor_model percept (view h r) with
    | Ok s' =>
        fst (runPy (SharedVacuum.vacuum_sensor_model percept r) h) =
          Ok (length h) ∧ g = s'
    | Raise e =>
        fst (runPy (SharedVacuum.vacuum_sensor_model percept r) h) = Raise e
    end.
Proof.
  unfold SharedVacuum.vacuum_sensor_model, vacuum_sensor_model.
  rewrite runPy_bind, copy_run, runPy_bind, call_run.
  destruct (getitem percept "loc") as [loc|e]; [|by eexists].
  rewrite bind_Ok, runPy_bind, setitem_run, runPy_bind, load_run, view_snoc.
  rewrite runPy_bind, call_run.
  destruct (dict _) as [dirty|e]; [|by eexists].
  rewrite bind_Ok, runPy_bind, call_run.
  destruct (getitem percept "dirty") as [d|e]; [|by eexists].
  rewrite bind_Ok, runPy_bind, call_run.
  destruct (hashable loc) as [k|e]; [|by eexists].
  rewrite bind_Ok, runPy_bind, setitem_run, runPy_mret.
  by eexists.
Qed.

Lemma shared_vacuum_transition_pure :
  pure_transition SharedVacuum.vacuum_transition_model
    vacuum_transition_model.
Proof.
  intros h r a Hr.
  destruct (shared_vacuum_transition_run r a h) as (s' & HT & ->).
  cbn [fst snd]. split; [apply preserves_snoc|].
  split; [apply live_snoc|]. by rewrite view_snoc.
Qed.

Lemma shared_vacuum_sensor_pure :
  pure_sensor SharedVacuum.vacuum_sensor_model vacuum_sensor_model.
Proof.
  intros h percept r Hr.
  destruct (shared_vacuum_sensor_run percept r h) as (g & -> & H).
  split; [apply preserves_snoc|].
  destruct (vacuum_sensor_model percept (view h r)) as [s'|e].
  - destruct H as [-> ->]. split; [apply live_snoc|]. by rewrite view_snoc.
  - by rewrite H.
Qed.

Lemma on_store_pure (q : Rule belief value pyexn) :
  pure_rule (SharedVacuum.on_store q) q.
Proof.
  split; [done|]. intros h r Hr. cbn [Shared.condition SharedVacuum.on_store].
  rewrite runPy_bind, load_run, call_run. cbn [fst snd].
  split; [|done]. by intros r' Hr'.
Qed.

Lemma shared_vacuum_rules_pure :
  Forall2 pure_rule SharedVacuum.vacuum_rules vacuum_rules.
Proof.
  unfold SharedVacuum.vacuum_rules, vacuum_rules.
  do 3 (constructor; [apply on_store_pure|]). constructor.
Qed.
End SharedVacuumProperties.

(** * Properties of the vacuum world *)

Section VacuumProperties.
Implicit Types (s : belief) (d : gmap hkey value) (k : hkey)
  (a v percept : value).

Lemma dict_get_insert_eq d k v default :
  dict_get (<[k := v]> d) k default = v.
Proof. unfold dict_get. by rewrite lookup_insert_eq. Qed.

Lemma dict_get_insert_ne d k k' v default :
  k ≠ k' → dict_get (<[k := v]> d) k' default = dict_get d k' default.
Proof. intros H. unfold dict_get. by rewrite lookup_insert_ne. Qed.

Lemma eq_str_other (lit lit' : string) :
  lit ≠ lit' → eq_str (VStr lit) lit' = false.
Proof. intros H. cbn. by apply bool_decide_eq_false. Qed.

(** The transition model always returns, and never touches ['dirty']. *)
Lemma vacuum_transition_model_returns s a :
  ∃ predicted,
    vacuum_transition_model s a = Ok predicted ∧
    predicted !! KStr "dirty" = s !! KStr "dirty".
Proof.
  unfold vacuum_transition_model.
  destruct (eq_str a "LEFT"); [|destruct (eq_str a "RIGHT")];
    eexists; (split; [reflexivity|]); by rewrite ?lookup_insert_ne.
Qed.

(** The sensor model on a well-formed percept. *)
Lemma vacuum_sensor_model_returns percept loc dirty predicted :
  vacuum_percept_ok percept loc dirty →
  dirty_copyable predicted →
  ∃ d,
    vacuum_sensor_model percept predicted =
      Ok (<[KStr "dirty" := VDict (<[KStr loc := VBool dirty]> d)]>
            (<[KStr "loc" := VStr loc]> predicted)).
Proof.
  intros (p & -> & Hloc & _ & Hdirty) Hcopy.
  unfold vacuum_sensor_model. cbn [getitem]. rewrite Hloc, Hdirty.
  rewrite !bind_Ok, dict_get_insert_ne by done.
  unfold dict_get. destruct (predicted !! KStr "dirty") as [v|] eqn:Hv.
  - destruct (Hcopy v Hv) as [d ->]. by exists d.
  - by eexists.
Qed.

(** The rules on a belief state as the sensor model leaves it. *)
Lemma vacuum_rules_match loc dirty d s :
  loc = "A" ∨ loc = "B" →
  ∃ r,
    rule_match
      (<[KStr "dirty" := VDict (<[KStr loc := VBool dirty]> d)]>
         (<[KStr "loc" := VStr loc]> s))
      vacuum_rules = Ok (Some r) ∧
    action r = vacuum_move loc dirty.
Proof.
  intros Hloc. unfold vacuum_rules, vacuum_move.
  set (st := <[KStr "dirty" := _]> _).
  assert (dict_get st "loc" VNone = VStr loc) as Hl.
  { unfold st. by rewrite dict_get_insert_ne, dict_get_insert_eq. }
  assert (dict_get st "dirty" (VDict ∅) = VDict (<[KStr loc := VBool dirty]> d))
    as Hd.
  { unfold st. by rewrite dict_get_insert_eq. }
  assert (condition suck_if_dirty st = Ok dirty) as Hsuck.
  { cbn. rewrite Hd, Hl. cbn. rewrite dict_get_insert_eq. by destruct dirty. }
  destruct dirty.
  - eexists. split; [by apply rule_match_cons_true | reflexivity].
  - rewrite rule_match_cons_false by exact Hsuck.
    destruct Hloc as [-> | ->].
    + eexists. split; [apply rule_match_cons_true; cbn; by rewrite Hl|].
      reflexivity.
    + rewrite rule_match_cons_false by (cbn; by rewrite Hl).
      eexists. split; [apply rule_match_cons_true; cbn; by rewrite Hl|].
      reflexivity.
Qed.

(** C4.  The driver's run: the agent starts from the belief
    [{loc:'A', dirty:{A:true,B:true}}] with no-op ['NO-OP'], the five
    percepts are fed in order, no call raises, and the lines printed carry
    the actions SUCK, RIGHT, SUCK, LEFT, RIGHT and the belief states after
    each step. *)
Theorem vacuum_demo_trace :
  fst (run demo_agent demo_percepts) = Ok () ∧
  stdout (snd (run demo_agent demo_percepts)) =
    [ (1, vacuum_percept "A" true, VStr "SUCK",
       vacuum_belief "A" true true);
      (2, vacuum_percept "A" false, VStr "RIGHT",
       vacuum_belief "A" false true);
      (3, vacuum_percept "B" true, VStr "SUCK",
       vacuum_belief "B" false true);
      (4, vacuum_percept "B" false, VStr "LEFT",
       vacuum_belief "B" false false);
      (5, vacuum_percept "A" false, VStr "RIGHT",
       vacuum_belief "A" false false) ] ∧
  state (self (snd (run demo_agent demo_percepts))) =
    vacuum_belief "A" false false.
Proof. split; [|split]; reflexivity. Qed.

(** C7.  The vacuum transition model is the identity on the no-op action,
    so an update whose last action is ['NO-OP'] hands the prior state itself
    to the sensor model. *)
Theorem vacuum_transition_model_no_op s :
  vacuum_transition_model s (VStr "NO-OP") = Ok s ∧
  ∀ percept (S : value → belief → result pyexn belief),
    update_state s (VStr "NO-OP") percept vacuum_transition_model S =
      S percept s.
Proof.
  assert (vacuum_transition_model s (VStr "NO-OP") = Ok s) as H.
  { unfold vacuum_transition_model.
    by rewrite !eq_str_other by (by intros [=]). }
  split; [exact H|]. intros percept S.
  by rewrite update_state_phases, H.
Qed.

(** C10, amended.  For a vacuum agent in any belief state whose ['dirty']
    entry is absent or accepted by [dict(...)], with any last action, and
    for every percept whose ['loc'] is ['A'] or ['B'] and whose ['dirty'] is
    a boolean, [perceive] returns SUCK, RIGHT or LEFT, never the no-op:
    SUCK when the percept is dirty, else RIGHT at ['A'] and LEFT at
    ['B']. *)
Theorem vacuum_perceive_moves s a percept loc dirty :
  vacuum_percept_ok percept loc dirty →
  dirty_copyable s →
  returns_a_move s a percept ∧
  fst (runPy (perceive percept) (MkWorld (vacuum_agent s a) [])) =
    Ok (vacuum_move loc dirty).
Proof.
  intros Hp Hs.
  destruct (vacuum_transition_model_returns s a) as (predicted & HT & Hd).
  destruct (vacuum_sensor_model_returns percept loc dirty predicted Hp)
    as [d HS].
  { intros v Hv. apply Hs. by rewrite <- Hd. }
  destruct Hp as (_ & _ & _ & Hloc & _).
  destruct (vacuum_rules_match loc dirty d predicted Hloc) as (r & Hr & Hact).
  assert (runPy (perceive percept) (MkWorld (vacuum_agent s a) []) =
          (Ok (vacuum_move loc dirty),
           MkWorld
             (vacuum_agent
                (<[KStr "dirty" := VDict (<[KStr loc := VBool dirty]> d)]>
                   (<[KStr "loc" := VStr loc]> predicted))
                (vacuum_move loc dirty))
             [])) as Hrun.
  { rewrite perceive_run.
    cbn [self vacuum_agent state self_action transition_model
         sensor_model rules no_op].
    by rewrite update_state_phases, HT, HS, Hr, <- Hact. }
  split; [|by rewrite Hrun].
  eexists _, _. split; [exact Hrun|]. unfold vacuum_move.
  destruct dirty; [by auto|]. case_bool_decide; by auto.
Qed.
End VacuumProperties.

(** * The statements at work on the driver's agent *)

(** On [{loc:'A', dirty:{A:true,B:true}}] both the dirt rule and the rule for
    location ['A'] are true: the order of the two decides. *)
Lemma rule_match_first_wins_witness :
  condition suck_if_dirty (vacuum_belief "A" true true) = Ok true ∧
  condition right_if_at_A (vacuum_belief "A" true true) = Ok true ∧
  rule_match (vacuum_belief "A" true true)
    [suck_if_dirty; right_if_at_A; left_if_at_B] = Ok (Some suck_if_dirty) ∧
  rule_match (vacuum_belief "A" true true)
    [right_if_at_A; suck_if_dirty; left_if_at_B] = Ok (Some right_if_at_A).
Proof.
  assert (condition suck_if_dirty (vacuum_belief "A" true true) = Ok true)
    as H1 by reflexivity.
  assert (condition right_if_at_A (vacuum_belief "A" true true) = Ok true)
    as H2 by reflexivity.
  split; [exact H1|]. split; [exact H2|].
  pose proof (rule_match_first_wins (vacuum_belief "A" true true)
                suck_if_dirty right_if_at_A [left_if_at_B] H1 H2) as H.
  split; [exact (proj1 H) | exact (proj1 (proj2 H))].
Defined.

(** The first call of the driver. *)
Lemma perceive_update_match_store_witness :
  update_state (state demo_agent) (self_action demo_agent)
    (vacuum_percept "A" true)
    (transition_model demo_agent) (sensor_model demo_agent)
    = Ok (vacuum_belief "A" true true) ∧
  rule_match (vacuum_belief "A" true true) (rules demo_agent)
    = Ok (Some suck_if_dirty) ∧
  runPy (perceive (vacuum_percept "A" true)) (MkWorld demo_agent []) =
    (Ok (VStr "SUCK"),
     MkWorld
       (MkAgent vacuum_transition_model vacuum_sensor_model vacuum_rules
          (vacuum_belief "A" true true) (VStr "SUCK") (VStr "NO-OP"))
       []).
Proof.
  assert (update_state (state demo_agent) (self_action demo_agent)
            (vacuum_percept "A" true)
            (transition_model demo_agent) (sensor_model demo_agent)
          = Ok (vacuum_belief "A" true true))
    as H1 by reflexivity.
  assert (rule_match (vacuum_belief "A" true true) (rules demo_agent)
          = Ok (Some suck_if_dirty)) as H2.
  { apply rule_match_cons_true. reflexivity. }
  split; [exact H1|]. split; [exact H2|].
  exact (perceive_update_match_store (vacuum_percept "A" true)
           (MkWorld demo_agent []) _ _ H1 H2).
Defined.

(** A percept that is not a dict makes the sensor model raise. *)
Lemma perceive_model_raises_witness :
  (transition_model demo_agent (state demo_agent) (self_action demo_agent)
     = Raise TypeError ∨
   ∃ predicted,
     transition_model demo_agent (state demo_agent) (self_action demo_agent)
       = Ok predicted ∧
     sensor_model demo_agent VNone predicted = Raise TypeError) ∧
  runPy (perceive VNone) (MkWorld demo_agent []) =
    (Raise TypeError, MkWorld demo_agent []).
Proof.
  assert (transition_model demo_agent (state demo_agent)
            (self_action demo_agent) = Raise TypeError ∨
          ∃ predicted,
            transition_model demo_agent (state demo_agent)
              (self_action demo_agent) = Ok predicted ∧
            sensor_model demo_agent VNone predicted = Raise TypeError) as H.
  { right. exists (vacuum_belief "A" true true).
    split; reflexivity. }
  split; [exact H|].
  exact (perceive_model_raises VNone (MkWorld demo_agent []) TypeError H).
Defined.

(** Two vacuum agents built on one dict object, the driver's initial
    belief, and fed the driver's percepts one after the other: both runs
    print the five lines of the driver, and the shared object is as it
    was. *)
Lemma replay_in_shared_store_witness :
  let h := [vacuum_belief "A" true true] in
  let runs :=
    Shared.replay SharedVacuum.vacuum_transition_model
      SharedVacuum.vacuum_sensor_model SharedVacuum.vacuum_rules
      (Some 0) (VStr "NO-OP") demo_percepts h in
  (allocates (Store := list belief) ∧
   pure_transition SharedVacuum.vacuum_transition_model
     vacuum_transition_model ∧
   pure_sensor SharedVacuum.vacuum_sensor_model vacuum_sensor_model ∧
   Forall2 pure_rule SharedVacuum.vacuum_rules vacuum_rules ∧
   (∀ r, Some 0 = Some r → live h r)) ∧
  Shared.stdout (snd (fst runs)) = stdout (snd (run demo_agent demo_percepts)) ∧
  Shared.stdout (snd (snd runs)) = stdout (snd (run demo_agent demo_percepts)) ∧
  view (Shared.store (snd (snd runs))) 0 = vacuum_belief "A" true true.
Proof.
  intros h runs.
  assert (∀ r, Some 0 = Some r → live h r) as Hlive.
  { intros r [= <-]. cbn. lia. }
  pose proof (replay_in_shared_store
                SharedVacuum.vacuum_transition_model
                SharedVacuum.vacuum_sensor_model SharedVacuum.vacuum_rules
                vacuum_transition_model vacuum_sensor_model vacuum_rules
                (Some 0) (VStr "NO-OP") demo_percepts h
                list_store_allocates shared_vacuum_transition_pure
                shared_vacuum_sensor_pure shared_vacuum_rules_pure Hlive)
    as [(_ & Hsame & _) (_ & Hout & _)].
  split.
  { split; [exact list_store_allocates|].
    split; [exact shared_vacuum_transition_pure|].
    split; [exact shared_vacuum_sensor_pure|].
    split; [exact shared_vacuum_rules_pure | exact Hlive]. }
  split; [exact Hout|].
  split; [exact (eq_trans (eq_sym Hsame) Hout) | reflexivity].
Defined.

(** Purity is needed.  A transition model that moves the agent by writing
    ['loc'] in the object it is given, instead of in a copy, changes the
    initial state the second agent shares: fed one percept, the first agent
    goes LEFT and the second RIGHT. *)
Lemma replay_in_place_differs :
  let in_place (r : nat) (x : value) : Py pyexn (list belief) nat :=
    st ← SharedVacuum.load r;
    SharedVacuum.setitem r "loc"
      (if eq_str (dict_get st "loc" VNone) "A" then VStr "B" else VStr "A");;
    mret r in
  let runs :=
    Shared.replay in_place (λ _ r, mret r) SharedVacuum.vacuum_rules
      (Some 0) (VStr "NO-OP") [VNone] [vacuum_belief "A" false false] in
  line_action <$> Shared.stdout (snd (fst runs)) = [VStr "LEFT"] ∧
  line_action <$> Shared.stdout (snd (snd runs)) = [VStr "RIGHT"].
Proof. split; reflexivity. Qed.

(** The second call of the driver, seen from the initial belief. *)
Lemma vacuum_perceive_moves_witness :
  vacuum_percept_ok (vacuum_percept "A" false) "A" false ∧
  dirty_copyable (vacuum_belief "A" true true) ∧
  fst (runPy (perceive (vacuum_percept "A" false))
         (MkWorld (vacuum_agent (vacuum_belief "A" true true) (VStr "SUCK"))
            [])) = Ok (VStr "RIGHT").
Proof.
  assert (vacuum_percept_ok (vacuum_percept "A" false) "A" false) as Hp.
  { eexists. split; [reflexivity|].
    split; [reflexivity|]. split; [by left|].
    reflexivity. }
  assert (dirty_copyable (vacuum_belief "A" true true)) as Hs.
  { intros v Hv.
    assert (vacuum_belief "A" true true !! KStr "dirty" =
            Some (VDict (<[KStr "A" := VBool true]>
                           (<[KStr "B" := VBool true]> ∅)))) as E
      by reflexivity.
    rewrite E in Hv. injection Hv as <-. by eexists. }
  split; [exact Hp|]. split; [exact Hs|].
  exact (proj2 (vacuum_perceive_moves (vacuum_belief "A" true true)
                  (VStr "SUCK") (vacuum_percept "A" false) "A" false Hp Hs)).
Defined.

(** C10 as stated fails: a belief state whose ['dirty'] entry is [None] makes
    [dict(dirty)] in the sensor model raise [TypeError], so [perceive] returns
    nothing. *)
Lemma vacuum_perceive_dirty_None_raises :
  vacuum_percept_ok (vacuum_percept "A" true) "A" true ∧
  fst (runPy (perceive (vacuum_percept "A" true))
         (MkWorld (vacuum_agent (<[KStr "dirty" := VNone]> ∅) (VStr "NO-OP"))
            [])) = Raise TypeError ∧
  ¬ returns_a_move (<[KStr "dirty" := VNone]> ∅) (VStr "NO-OP")
      (vacuum_percept "A" true).
Proof.
  assert (fst (runPy (perceive (vacuum_percept "A" true))
            (MkWorld (vacuum_agent (<[KStr "dirty" := VNone]> ∅)
               (VStr "NO-OP")) [])) = Raise TypeError)
    as H by reflexivity.
  split; [|split; [exact H|]].
  - eexists. split; [reflexivity|].
    split; [reflexivity|]. split; [by left|].
    reflexivity.
  - intros (act & w' & Hrun & _). rewrite Hrun in H. discriminate H.
Qed.

(** * Further properties of the core *)

Section MoreRuleMatch.
Context {State Action Exn : Type}.

Implicit Types (s : State) (r : Rule State Action Exn)
  (rs : list (Rule State Action Exn)).

(** X1.  Matching over a concatenation: the second list is consulted only
    when the first gives no match; a match or an exception of the first list
    is the result. *)
Theorem rule_match_app s rs1 rs2 :
  rule_match s (rs1 ++ rs2) =
    match rule_match s rs1 with
    | Ok None => rule_match s rs2
    | res => res
    end.
Proof.
  induction rs1 as [|q rs1 IH]; [done|].
  rewrite <- app_comm_cons.
  destruct (condition q s) as [[|]|e] eqn:Hq.
  - by rewrite !(rule_match_cons_true _ _ _ Hq).
  - by rewrite !(rule_match_cons_false _ _ _ Hq).
  - by rewrite !(rule_match_cons_raise _ _ _ _ Hq).
Qed.

(** X2.  When no condition of the list raises on [s], [rule_match] does not
    raise and is [List.find] for the rules whose condition is true. *)
Theorem rule_match_find s rs :
  Forall (λ r, ∃ b, condition r s = Ok b) rs →
  rule_match s rs = Ok (List.find (holds s) rs).
Proof.
  induction 1 as [|q rs [b Hq] _ IH]; [done|].
  cbn [List.find]. unfold holds at 1. rewrite Hq. destruct b.
  - by apply rule_match_cons_true.
  - by rewrite (rule_match_cons_false _ _ _ Hq).
Qed.
End MoreRuleMatch.

Section MorePerceive.
Context {State Action Percept Exn : Type}.

Implicit Types (s : State) (x : Action) (percept : Percept) (e : Exn)
  (w : world State Action Percept Exn).

Lemma rule_match_justified s (rs : list (Rule State Action Exn)) m
    (n : Action) :
  rule_match s rs = Ok m → justified rs n s (chosen m n).
Proof.
  destruct m as [r|]; intros Hm.
  - right. apply rule_match_Some in Hm as (pre & post & -> & _ & Hr).
    exists r. split; [|done]. apply elem_of_app. right. left.
  - left. split; [done|]. by apply rule_match_None.
Qed.

(** Whatever the outcome, [perceive] rebuilds the world around the same
    collaborators and the same output. *)
Lemma perceive_world percept w :
  ∃ st act,
    snd (runPy (perceive percept) w) =
      MkWorld
        (MkAgent (transition_model (self w)) (sensor_model (self w))
           (rules (self w)) st act (no_op (self w)))
        (stdout w).
Proof.
  rewrite perceive_run.
  destruct (update_state _ _ _ _ _) as [new|e].
  - destruct (rule_match _ _) as [m|e]; by eexists _, _.
  - destruct w as [[] ?]. by eexists _, _.
Qed.

(** X3.  An action returned by [perceive] is the new last action, and it is
    what the rules give on the new belief state: the action of a rule of the
    agent whose condition is true on that state, or the no-op when every
    condition is false on it. *)
Theorem perceive_action_justified percept w act w' :
  runPy (perceive percept) w = (Ok act, w') →
  self_action (self w') = act ∧
  justified (rules (self w)) (no_op (self w)) (state (self w')) act.
Proof.
  rewrite perceive_run.
  destruct (update_state _ _ _ _ _) as [new|e]; [|done].
  destruct (rule_match _ _) as [m|e] eqn:Hm; [|done].
  intros [= <- <-]. split; [done|]. cbn. by apply rule_match_justified.
Qed.

(** X4.  The match is not covered by the commit of the update: when the
    update returns [new] and a rule condition then raises, [perceive] raises
    that exception with the belief state already replaced by [new] and the
    last action left as it was. *)
Theorem perceive_condition_raises percept w new e :
  update_state (state (self w)) (self_action (self w)) percept
    (transition_model (self w)) (sensor_model (self w)) = Ok new →
  rule_match new (rules (self w)) = Raise e →
  runPy (perceive percept) w =
    (Raise e,
     MkWorld
       (MkAgent (transition_model (self w)) (sensor_model (self w))
          (rules (self w)) new (self_action (self w)) (no_op (self w)))
       (stdout w)).
Proof. intros Hu Hm. by rewrite perceive_run, Hu, Hm. Qed.
End MorePerceive.

(** * Properties of construction and of the driver loop *)

Section MoreDriver.
Context {State Action Percept Exn : Type}.

Implicit Types (t : nat) (z : Percept) (ps : list Percept)
  (w : world State Action Percept Exn).

(** One turn of the loop. *)
Lemma drive_cons t z ps w :
  runPy (drive t (z :: ps)) w =
    match runPy (perceive z) w with
    | (Ok act, w1) =>
        runPy (drive (S t) ps)
          (MkWorld (self w1) (stdout w1 ++ [(t, z, act, state (self w1))]))
    | (Raise e, w1) => (Raise e, w1)
    end.
Proof.
  cbn [drive]. rewrite runPy_bind.
  by destruct (runPy (perceive z) w) as [[act|e] w1].
Qed.

(** The whole of a run, from any world: the collaborators stay, lines are
    only appended, they are numbered from [t] and carry the percepts in
    order, each printed action is what the rules give on the printed state,
    and after a run that returns the agent is as the last line says. *)
Lemma drive_trace ps : ∀ t w,
  ∃ new st act,
    snd (runPy (drive t ps) w) =
      MkWorld
        (MkAgent (transition_model (self w)) (sensor_model (self w))
           (rules (self w)) st act (no_op (self w)))
        (stdout w ++ new) ∧
    map line_input new = zip (seq t (length new)) (take (length new) ps) ∧
    Forall (λ l, justified (rules (self w)) (no_op (self w))
                   (line_state l) (line_action l)) new ∧
    match fst (runPy (drive t ps) w) with
    | Ok _ =>
        length new = length ps ∧
        (st, act) =
          default (state (self w), self_action (self w))
            ((λ l, (line_state l, line_action l)) <$> last new)
    | Raise _ => length new < length ps
    end.
Proof.
  induction ps as [|z ps IH]; intros t w.
  - exists [], (state (self w)), (self_action (self w)).
    cbn [drive]. rewrite runPy_mret, app_nil_r.
    destruct w as [[] ?]. by repeat split.
  - rewrite drive_cons, perceive_run.
    destruct (update_state _ _ _ _ _) as [new_state|e].
    2:{ exists [], (state (self w)), (self_action (self w)).
        rewrite app_nil_r. destruct w as [[] ?].
        repeat split; [constructor | cbn; lia]. }
    destruct (rule_match _ _) as [m|e] eqn:Hm.
    2:{ exists [], new_state, (self_action (self w)).
        rewrite app_nil_r.
        repeat split; [constructor | cbn; lia]. }
    set (act0 := chosen m (no_op (self w))).
    set (l0 := (t, z, act0, new_state)).
    cbn [self stdout set_self set_action set_state state].
    match goal with |- context [runPy (drive (S t) ps) ?w2] =>
      destruct (IH (S t) w2) as (new & st & act & Hw & Hin & Hj & Hres)
    end.
    cbn [self stdout transition_model sensor_model rules no_op state
         self_action] in Hw, Hj, Hres.
    exists (l0 :: new), st, act. split; [|split; [|split]].
    + by rewrite Hw, <- app_assoc.
    + cbn [length seq take map]. by rewrite Hin.
    + constructor; [|done]. by apply rule_match_justified.
    + destruct (fst _); [|cbn [length]; lia].
      destruct Hres as [Hlen Hlast]. split; [cbn [length]; lia|].
      rewrite Hlast, last_cons. by destruct (last new).
Qed.

(** X5.  Feeding a percept list in two batches is feeding their
    concatenation: the second batch starts from the world the first one left,
    its steps numbered on from there, and is not started when the first one
    raised. *)
Theorem drive_app t ps1 ps2 w :
  runPy (drive t (ps1 ++ ps2)) w =
    match runPy (drive t ps1) w with
    | (Ok _, w') => runPy (drive (t + length ps1) ps2) w'
    | (Raise e, w') => (Raise e, w')
    end.
Proof.
  revert t w. induction ps1 as [|z ps1 IH]; intros t w.
  - cbn [app length drive]. by rewrite runPy_mret, Nat.add_0_r.
  - rewrite <- app_comm_cons, !drive_cons.
    destruct (runPy (perceive z) w) as [[act|e] w1]; [|done].
    rewrite IH. cbn [length]. by rewrite Nat.add_succ_r.
Qed.

(** X6.  A run only appends to the output.  The new lines are numbered
    consecutively from [t] and carry the percepts in the order given; there
    is one line per percept when the run returns, and fewer lines than
    percepts when it raises. *)
Theorem drive_lines t ps w :
  ∃ new,
    stdout (snd (runPy (drive t ps) w)) = stdout w ++ new ∧
    map line_input new = zip (seq t (length new)) (take (length new) ps) ∧
    match fst (runPy (drive t ps) w) with
    | Ok _ => length new = length ps
    | Raise _ => length new < length ps
    end.
Proof.
  destruct (drive_trace ps t w) as (new & st & act & Hw & Hin & _ & Hres).
  exists new. rewrite Hw. split; [done|]. split; [done|].
  destruct (fst _); [apply Hres | done].
Qed.

(** X7.  Every line a run prints is justified by the rules: its action is
    the action of a rule of the agent whose condition is true on the belief
    state of the line, or the no-op when every condition is false on it. *)
Theorem drive_lines_justified t ps w :
  ∃ new,
    stdout (snd (runPy (drive t ps) w)) = stdout w ++ new ∧
    Forall (λ l, justified (rules (self w)) (no_op (self w))
                   (line_state l) (line_action l)) new.
Proof.
  destruct (drive_trace ps t w) as (new & st & act & Hw & _ & Hj & _).
  exists new. by rewrite Hw.
Qed.

(** X8.  After a run, returned or raised, the agent has the transition
    model, sensor model, rule list and no-op it started with. *)
Theorem drive_collaborators t ps w :
  let a' := self (snd (runPy (drive t ps) w)) in
  transition_model a' = transition_model (self w) ∧
  sensor_model a' = sensor_model (self w) ∧
  rules a' = rules (self w) ∧
  no_op a' = no_op (self w).
Proof.
  destruct (drive_trace ps t w) as (new & st & act & Hw & _).
  by rewrite Hw.
Qed.

(** X9.  After a run that returns, the belief state and the last action of
    the agent are those of the last line printed, and those from before the
    run when nothing was printed. *)
Theorem drive_final t ps w :
  ∃ new,
    stdout (snd (runPy (drive t ps) w)) = stdout w ++ new ∧
    match fst (runPy (drive t ps) w) with
    | Ok _ =>
        (state (self (snd (runPy (drive t ps) w))),
         self_action (self (snd (runPy (drive t ps) w)))) =
          default (state (self w), self_action (self w))
            ((λ l, (line_state l, line_action l)) <$> last new)
    | Raise _ => True
    end.
Proof.
  destruct (drive_trace ps t w) as (new & st & act & Hw & _ & _ & Hres).
  exists new. rewrite Hw. split; [done|].
  destruct (fst _); [apply Hres | done].
Qed.
End MoreDriver.

(** X10.  A fresh agent over dict belief states starts from the dict it was
    given, the empty one included (and from the empty dict when it was given
    none), with the no-op as its last action. *)
Theorem init_fresh (T : belief → value → result pyexn belief)
    (S : value → belief → result pyexn belief)
    (rs : list (Rule belief value pyexn)) (initial_state : option belief)
    (n : value) :
  init T S rs initial_state n = MkAgent T S rs (default ∅ initial_state) n n.
Proof.
  unfold init. destruct initial_state as [d|]; [|done].
  cbn. case_bool_decide; by subst.
Qed.

(** * Further properties of the vacuum world *)

Section MoreVacuum.
Implicit Types (s : belief) (d old : gmap hkey value) (k : hkey)
  (a v loc percept : value) (out : list (@line belief value value)).

(** X11.  The transition model never raises and only ever writes ['loc']:
    every other entry of the state is kept, and ['loc'] becomes ['A'] after
    LEFT, ['B'] after RIGHT and is kept after any other action. *)
Theorem vacuum_transition_model_moves s a :
  ∃ predicted,
    vacuum_transition_model s a = Ok predicted ∧
    (∀ k, k ≠ KStr "loc" → predicted !! k = s !! k) ∧
    predicted !! KStr "loc" =
      if eq_str a "LEFT" then Some (VStr "A")
      else if eq_str a "RIGHT" then Some (VStr "B")
      else s !! KStr "loc".
Proof.
  unfold vacuum_transition_model.
  destruct (eq_str a "LEFT"); [|destruct (eq_str a "RIGHT")];
    eexists; (split; [reflexivity|]); split;
    try (by intros k Hk; rewrite lookup_insert_ne);
    by rewrite ?lookup_insert_eq.
Qed.

Lemma believed_dirt_insert_loc s loc :
  believed_dirt (<[KStr "loc" := loc]> s) = believed_dirt s.
Proof. unfold believed_dirt. by rewrite dict_get_insert_ne. Qed.

Lemma dirty_copyable_believed s :
  dirty_copyable s ↔ ∃ old, dict (believed_dirt s) = Ok old.
Proof.
  unfold dirty_copyable, believed_dirt, dict_get.
  destruct (s !! KStr "dirty") as [x|]; split.
  - intros H. by apply H.
  - by intros H ? [= <-].
  - intros _. by eexists.
  - by intros _ ? [=].
Qed.

(** The sensor model, when it returns. *)
Lemma vacuum_sensor_model_sensed percept s loc k v old :
  readable_percept percept loc k v →
  dict (believed_dirt s) = Ok old →
  vacuum_sensor_model percept s = Ok (sensed s loc k v old).
Proof.
  intros (d & -> & Hloc & Hk & Hv) Hold.
  unfold vacuum_sensor_model. cbn [getitem]. rewrite Hloc, Hv, !bind_Ok.
  fold (believed_dirt (<[KStr "loc" := loc]> s)).
  by rewrite believed_dirt_insert_loc, Hold, !bind_Ok, Hk.
Qed.

(** The sensor model returns only in that way. *)
Lemma vacuum_sensor_model_inv percept s s' :
  vacuum_sensor_model percept s = Ok s' →
  ∃ loc k v old,
    readable_percept percept loc k v ∧
    dict (believed_dirt s) = Ok old ∧
    s' = sensed s loc k v old.
Proof.
  unfold vacuum_sensor_model.
  destruct percept as [| | |d]; try done. cbn [getitem].
  destruct (d !! KStr "loc") as [loc|] eqn:Hloc; [|done].
  rewrite bind_Ok.
  fold (believed_dirt (<[KStr "loc" := loc]> s)).
  rewrite believed_dirt_insert_loc.
  destruct (dict (believed_dirt s)) as [old|e] eqn:Hold; [|done].
  rewrite bind_Ok.
  destruct (d !! KStr "dirty") as [v|] eqn:Hv; [|done].
  rewrite bind_Ok.
  destruct (hashable loc) as [k|e] eqn:Hk; [|done].
  rewrite bind_Ok. intros [= <-].
  exists loc, k, v, old. split; [by exists d | done].
Qed.

(** X12.  The sensor model returns exactly when the percept is a dict with
    a hashable ['loc'] and a ['dirty'] entry and the dirt flags believed so
    far can be copied by [dict(...)]; the state it returns is the predicted
    one with ['loc'] set to the percept's and, under ['dirty'], the copied
    flags with the flag of that location set to the percept's. *)
Theorem vacuum_sensor_model_returns_iff percept s s' :
  vacuum_sensor_model percept s = Ok s' ↔
  ∃ loc k v old,
    readable_percept percept loc k v ∧
    dict (believed_dirt s) = Ok old ∧
    s' = sensed s loc k v old.
Proof.
  split; [apply vacuum_sensor_model_inv|].
  intros (loc & k & v & old & Hp & Hold & ->).
  by apply vacuum_sensor_model_sensed.
Qed.

(** X13.  What the sensor model leaves in the state it returns: ['loc'] is
    the percept's location, the dirt flag of that location is the percept's
    ['dirty'], the flags of the other locations are the ones believed before,
    and every entry other than ['loc'] and ['dirty'] is kept. *)
Theorem vacuum_sensor_model_result percept s s' :
  vacuum_sensor_model percept s = Ok s' →
  ∃ loc k v old new,
    readable_percept percept loc k v ∧
    dict (believed_dirt s) = Ok old ∧
    s' !! KStr "loc" = Some loc ∧
    s' !! KStr "dirty" = Some (VDict new) ∧
    new !! k = Some v ∧
    (∀ k', k' ≠ k → new !! k' = old !! k') ∧
    (∀ key, key ≠ KStr "loc" → key ≠ KStr "dirty" → s' !! key = s !! key).
Proof.
  intros H.
  apply vacuum_sensor_model_inv in H
    as (loc & k & v & old & Hp & Hold & ->).
  exists loc, k, v, old, (<[k := v]> old). unfold sensed.
  split; [done|]. split; [done|]. split; [|split; [|split; [|split]]].
  - by rewrite lookup_insert_ne, lookup_insert_eq.
  - by rewrite lookup_insert_eq.
  - by rewrite lookup_insert_eq.
  - intros k' Hk'. by rewrite lookup_insert_ne.
  - intros key H1 H2. by rewrite !lookup_insert_ne.
Qed.

Lemma vacuum_sensor_model_insert_loc percept s loc :
  vacuum_sensor_model percept (<[KStr "loc" := loc]> s) =
  vacuum_sensor_model percept s.
Proof.
  unfold vacuum_sensor_model.
  destruct (getitem percept "loc") as [loc'|e]; [|done].
  rewrite !bind_Ok, insert_insert_eq.
  by rewrite !(dict_get_insert_ne _ (KStr "loc") (KStr "dirty")).
Qed.

Lemma vacuum_update s a percept :
  update_state s a percept vacuum_transition_model vacuum_sensor_model =
  vacuum_sensor_model percept s.
Proof.
  rewrite update_state_phases. unfold vacuum_transition_model.
  destruct (eq_str a "LEFT"); [|destruct (eq_str a "RIGHT")];
    cbn; by rewrite ?vacuum_sensor_model_insert_loc.
Qed.

(** X14.  In the vacuum world the prediction is always overwritten: the
    update is the sensor model applied to the prior state, so the new belief
    state does not depend on the last action. *)
Theorem vacuum_update_ignores_last_action s a percept :
  update_state s a percept vacuum_transition_model vacuum_sensor_model =
    vacuum_sensor_model percept s ∧
  ∀ a',
    update_state s a percept vacuum_transition_model vacuum_sensor_model =
    update_state s a' percept vacuum_transition_model vacuum_sensor_model.
Proof. split; [|intros a']; by rewrite !vacuum_update. Qed.
End MoreVacuum.

Section VacuumAgent.
Implicit Types (s : belief) (d old : gmap hkey value) (k : hkey)
  (a v loc percept : value) (out : list (@line belief value value)).

Lemma dirty_copyable_sensed s loc k v old :
  dirty_copyable (sensed s loc k v old).
Proof.
  intros x. unfold sensed. rewrite lookup_insert_eq.
  intros [= <-]. by eexists.
Qed.

Lemma believed_dirt_sensed s loc k v old :
  believed_dirt (sensed s loc k v old) = VDict (<[k := v]> old).
Proof. unfold believed_dirt, sensed. by rewrite dict_get_insert_eq. Qed.

(** Sensing again what was just sensed changes nothing. *)
Lemma sensed_sensed s loc k v old :
  sensed (sensed s loc k v old) loc k v (<[k := v]> old) =
  sensed s loc k v old.
Proof.
  unfold sensed. rewrite insert_insert_eq.
  rewrite (insert_insert_ne _ (KStr "loc") (KStr "dirty")) by done.
  by rewrite !insert_insert_eq.
Qed.

(** On a state the sensor model returned, no rule condition raises. *)
Lemma vacuum_rules_sensed s loc k v old :
  hashable loc = Ok k →
  ∃ m,
    rule_match (sensed s loc k v old) vacuum_rules = Ok m ∧
    chosen m (VStr "NO-OP") = vacuum_choice loc v.
Proof.
  intros Hk. unfold vacuum_rules, vacuum_choice.
  set (st := sensed s loc k v old).
  assert (dict_get st "loc" VNone = loc) as Hl.
  { unfold st, sensed. by rewrite dict_get_insert_ne, dict_get_insert_eq. }
  assert (condition suck_if_dirty st = Ok (is_True v)) as Hsuck.
  { assert (dict_get st "dirty" (VDict ∅) = VDict (<[k := v]> old)) as Hd.
    { unfold st, sensed. by rewrite dict_get_insert_eq. }
    unfold suck_if_dirty. cbn [condition]. rewrite Hd, Hl. cbn [attr_get].
    by rewrite bind_Ok, Hk, bind_Ok, dict_get_insert_eq. }
  assert (condition right_if_at_A st = Ok (eq_str loc "A")) as HA
    by (cbn; by rewrite Hl).
  assert (condition left_if_at_B st = Ok (eq_str loc "B")) as HB
    by (cbn; by rewrite Hl).
  destruct (is_True v).
  { exists (Some suck_if_dirty). by rewrite (rule_match_cons_true _ _ _ Hsuck). }
  rewrite (rule_match_cons_false _ _ _ Hsuck).
  destruct (eq_str loc "A").
  { exists (Some right_if_at_A). by rewrite (rule_match_cons_true _ _ _ HA). }
  rewrite (rule_match_cons_false _ _ _ HA).
  destruct (eq_str loc "B").
  { exists (Some left_if_at_B). by rewrite (rule_match_cons_true _ _ _ HB). }
  rewrite (rule_match_cons_false _ _ _ HB). by exists None.
Qed.

(** A call of [perceive] on a vacuum agent, when the sensor model returns. *)
Lemma vacuum_perceive_step s a out percept loc k v old :
  readable_percept percept loc k v →
  dict (believed_dirt s) = Ok old →
  runPy (perceive percept) (MkWorld (vacuum_agent s a) out) =
    (Ok (vacuum_choice loc v),
     MkWorld (vacuum_agent (sensed s loc k v old) (vacuum_choice loc v)) out).
Proof.
  intros Hp Hold. rewrite perceive_run.
  cbn [self vacuum_agent state self_action transition_model sensor_model
       rules no_op stdout].
  rewrite vacuum_update,
    (vacuum_sensor_model_sensed _ _ _ _ _ _ Hp Hold).
  destruct Hp as (_ & _ & _ & Hk & _).
  destruct (vacuum_rules_sensed s loc k v old Hk) as (m & -> & <-).
  reflexivity.
Qed.

(** The two ways a call of [perceive] on a vacuum agent can end. *)
Lemma vacuum_perceive_cases s a out percept :
  (∃ loc k v old,
     readable_percept percept loc k v ∧
     dict (believed_dirt s) = Ok old ∧
     runPy (perceive percept) (MkWorld (vacuum_agent s a) out) =
       (Ok (vacuum_choice loc v),
        MkWorld (vacuum_agent (sensed s loc k v old) (vacuum_choice loc v))
          out)) ∨
  (∃ e,
     vacuum_sensor_model percept s = Raise e ∧
     runPy (perceive percept) (MkWorld (vacuum_agent s a) out) =
       (Raise e, MkWorld (vacuum_agent s a) out)).
Proof.
  destruct (vacuum_sensor_model percept s) as [s'|e] eqn:HS.
  - left. apply vacuum_sensor_model_inv in HS
      as (loc & k & v & old & Hp & Hold & ->).
    exists loc, k, v, old. split; [done|]. split; [done|].
    by apply vacuum_perceive_step.
  - right. exists e. split; [done|]. rewrite perceive_run.
    cbn [self vacuum_agent state self_action transition_model sensor_model
         rules no_op stdout].
    by rewrite vacuum_update, HS.
Qed.

(** X15.  On any percept the sensor model can read, a vacuum agent whose
    believed dirt flags can be copied returns SUCK when the percept's
    ['dirty'] is [True]; otherwise RIGHT at ['A'], LEFT at ['B'], and the
    no-op at any other location.  Its new belief state is the sensed one and
    the returned action is its new last action. *)
Theorem vacuum_perceive_choice s a out percept loc k v :
  readable_percept percept loc k v →
  dirty_copyable s →
  ∃ old,
    dict (believed_dirt s) = Ok old ∧
    runPy (perceive percept) (MkWorld (vacuum_agent s a) out) =
      (Ok (vacuum_choice loc v),
       MkWorld (vacuum_agent (sensed s loc k v old) (vacuum_choice loc v))
         out).
Proof.
  intros Hp Hs. apply dirty_copyable_believed in Hs as [old Hold].
  exists old. split; [done|]. by apply vacuum_perceive_step.
Qed.

(** X16.  A vacuum agent commits all or nothing: when [perceive] raises,
    the exception is the sensor model's and the agent and the output are
    exactly as before the call; no rule condition raises on a state the
    sensor model returned. *)
Theorem vacuum_perceive_atomic s a out percept e w' :
  runPy (perceive percept) (MkWorld (vacuum_agent s a) out) = (Raise e, w') →
  vacuum_sensor_model percept s = Raise e ∧
  w' = MkWorld (vacuum_agent s a) out.
Proof.
  destruct (vacuum_perceive_cases s a out percept)
    as [(loc & k & v & old & _ & _ & ->) | (e' & HS & ->)]; [done|].
  by intros [= -> <-].
Qed.

(** X17.  Perceiving the same percept a second time changes nothing: the
    same action is returned and the agent is left as the first call left
    it. *)
Theorem vacuum_perceive_twice s a out percept act w1 :
  runPy (perceive percept) (MkWorld (vacuum_agent s a) out) = (Ok act, w1) →
  runPy (perceive percept) w1 = (Ok act, w1).
Proof.
  destruct (vacuum_perceive_cases s a out percept)
    as [(loc & k & v & old & Hp & Hold & ->) | (e' & _ & ->)]; [|done].
  intros [= <- <-].
  rewrite (vacuum_perceive_step _ _ _ _ loc k v (<[k := v]> old) Hp).
  - by rewrite sensed_sensed.
  - by rewrite believed_dirt_sensed.
Qed.

(** X18.  A vacuum agent whose believed dirt flags can be copied, fed
    percepts that all have ['loc'] in ['A'], ['B'] and a boolean ['dirty'],
    never raises, prints one line per percept, and the action of every line
    is the move for the percept of that line: SUCK when dirty, else RIGHT at
    ['A'] and LEFT at ['B'], never the no-op. *)
Theorem vacuum_drive_moves t (ps : list value) s a out :
  dirty_copyable s →
  Forall (λ p, ∃ (loc : string) (dirty : bool),
            vacuum_percept_ok p loc dirty) ps →
  fst (runPy (drive t ps) (MkWorld (vacuum_agent s a) out)) = Ok () ∧
  ∃ new,
    stdout (snd (runPy (drive t ps) (MkWorld (vacuum_agent s a) out))) =
      out ++ new ∧
    length new = length ps ∧
    Forall (λ l, ∃ (loc : string) (dirty : bool),
              vacuum_percept_ok (line_input l).2 loc dirty ∧
              line_action l = vacuum_move loc dirty ∧
              line_action l ≠ VStr "NO-OP") new.
Proof.
  intros Hs Hps. revert t s a out Hs.
  induction Hps as [|z ps (loc & dirty & Hz) _ IH]; intros t s a out Hs.
  { split; [done|]. exists []. by rewrite app_nil_r. }
  apply dirty_copyable_believed in Hs as [old Hold].
  assert (readable_percept z (VStr loc) (KStr loc) (VBool dirty)) as Hp.
  { destruct Hz as (d & -> & Hloc & _ & Hd). by exists d. }
  assert (vacuum_choice (VStr loc) (VBool dirty) = vacuum_move loc dirty ∧
          vacuum_move loc dirty ≠ VStr "NO-OP") as [Hmove Hno].
  { destruct Hz as (_ & _ & _ & Hloc & _).
    unfold vacuum_choice, vacuum_move. destruct dirty; [done|].
    by destruct Hloc as [-> | ->]. }
  rewrite drive_cons, (vacuum_perceive_step _ _ _ _ _ _ _ _ Hp Hold), Hmove.
  cbn [self stdout state vacuum_agent].
  fold (vacuum_agent (sensed s (VStr loc) (KStr loc) (VBool dirty) old)
          (vacuum_move loc dirty)).
  match goal with |- context [MkWorld _ (out ++ [?l])] => set (l0 := l) end.
  destruct (IH (S t) _ (vacuum_move loc dirty) (out ++ [l0])
              (dirty_copyable_sensed s (VStr loc) (KStr loc) (VBool dirty) old))
    as (Hres & new & Hout & Hlen & Hall).
  split; [exact Hres|].
  exists (l0 :: new). split; [by rewrite Hout, <- app_assoc|].
  split; [cbn [length]; lia|].
  constructor; [|done]. by exists loc, dirty.
Qed.
End VacuumAgent.

Section VacuumRules.
Implicit Types (s : belief).

(** X19.  The three rules on any belief state.  When the ['dirty'] entry is
    absent or a dict and ['loc'] is absent or hashable, no condition raises
    and the match gives SUCK when the flag of ['loc'] is [True], otherwise
    RIGHT at ['A'], LEFT at ['B'] and no rule elsewhere.  A ['dirty'] entry
    that is not a dict makes the match raise [AttributeError]; a dict with an
    unhashable ['loc'] makes it raise [TypeError]. *)
Theorem vacuum_rules_outcome s :
  match dict_get s "dirty" (VDict ∅), hashable (dict_get s "loc" VNone) with
  | VDict d, Ok k =>
      ∃ m,
        rule_match s vacuum_rules = Ok m ∧
        chosen m (VStr "NO-OP") =
          vacuum_choice (dict_get s "loc" VNone) (dict_get d k (VBool false))
  | VDict d, Raise _ => rule_match s vacuum_rules = Raise TypeError
  | _, _ => rule_match s vacuum_rules = Raise AttributeError
  end.
Proof.
  assert (condition right_if_at_A s = Ok (eq_str (dict_get s "loc" VNone) "A"))
    as HA by reflexivity.
  assert (condition left_if_at_B s = Ok (eq_str (dict_get s "loc" VNone) "B"))
    as HB by reflexivity.
  assert (condition suck_if_dirty s =
          (d ← attr_get (dict_get s "dirty" (VDict ∅));
           k ← hashable (dict_get s "loc" VNone);
           mret (is_True (dict_get d k (VBool false))))) as Hsuck
    by reflexivity.
  unfold vacuum_rules, vacuum_choice.
  destruct (dict_get s "dirty" (VDict ∅)) as [| | |d];
    try (apply rule_match_cons_raise; by rewrite Hsuck).
  destruct (hashable (dict_get s "loc" VNone)) as [k|e] eqn:Hk.
  2:{ apply rule_match_cons_raise. rewrite Hsuck. cbn [attr_get].
      rewrite bind_Ok, bind_Raise. f_equal.
      destruct (dict_get s "loc" VNone); cbn in Hk; congruence. }
  cbn [attr_get] in Hsuck. rewrite !bind_Ok in Hsuck.
  destruct (is_True (dict_get d k (VBool false))).
  { exists (Some suck_if_dirty). by rewrite (rule_match_cons_true _ _ _ Hsuck). }
  rewrite (rule_match_cons_false _ _ _ Hsuck).
  destruct (eq_str (dict_get s "loc" VNone) "A").
  { exists (Some right_if_at_A). by rewrite (rule_match_cons_true _ _ _ HA). }
  rewrite (rule_match_cons_false _ _ _ HA).
  destruct (eq_str (dict_get s "loc" VNone) "B").
  { exists (Some left_if_at_B). by rewrite (rule_match_cons_true _ _ _ HB). }
  rewrite (rule_match_cons_false _ _ _ HB). by exists None.
Qed.
End VacuumRules.

(** * The further statements at work *)

(** At ['B'] with nothing dirty, the three conditions return and the first
    true one is the third. *)
Lemma rule_match_find_witness :
  Forall (λ r, ∃ b, condition r (vacuum_belief "B" false false) = Ok b)
    vacuum_rules ∧
  rule_match (vacuum_belief "B" false false) vacuum_rules =
    Ok (Some left_if_at_B).
Proof.
  assert (Forall (λ r, ∃ b, condition r (vacuum_belief "B" false false) = Ok b)
            vacuum_rules) as H.
  { repeat constructor; eexists; reflexivity. }
  split; [exact H|].
  exact (rule_match_find (vacuum_belief "B" false false) vacuum_rules H).
Defined.

(** The first call of the driver returns SUCK, the action of the dirt rule. *)
Lemma perceive_action_justified_witness :
  runPy (perceive (vacuum_percept "A" true)) (MkWorld demo_agent []) =
    (Ok (VStr "SUCK"),
     MkWorld (vacuum_agent (vacuum_belief "A" true true) (VStr "SUCK")) []) ∧
  justified vacuum_rules (VStr "NO-OP") (vacuum_belief "A" true true)
    (VStr "SUCK").
Proof.
  assert (runPy (perceive (vacuum_percept "A" true)) (MkWorld demo_agent []) =
          (Ok (VStr "SUCK"),
           MkWorld (vacuum_agent (vacuum_belief "A" true true) (VStr "SUCK"))
             [])) as H by reflexivity.
  split; [exact H|].
  exact (proj2 (perceive_action_justified _ _ _ _ H)).
Defined.

(** An agent whose models return the state as it is, over a belief state
    whose ['dirty'] is [None]: the dirt rule raises [AttributeError]. *)
Lemma perceive_condition_raises_witness :
  let a :=
    MkAgent (λ s _, Ok s) (λ _ s, Ok s) vacuum_rules
      (<[KStr "dirty" := VNone]> ∅) (VStr "RIGHT") (VStr "NO-OP") in
  update_state (state a) (self_action a) VNone
    (transition_model a) (sensor_model a) = Ok (<[KStr "dirty" := VNone]> ∅) ∧
  rule_match (<[KStr "dirty" := VNone]> ∅) (rules a) = Raise AttributeError ∧
  runPy (perceive VNone) (MkWorld a []) = (Raise AttributeError, MkWorld a []).
Proof.
  intros a.
  assert (update_state (state a) (self_action a) VNone
            (transition_model a) (sensor_model a)
          = Ok (<[KStr "dirty" := VNone]> ∅)) as H1 by reflexivity.
  assert (rule_match (<[KStr "dirty" := VNone]> ∅) (rules a)
          = Raise AttributeError) as H2 by reflexivity.
  split; [exact H1|]. split; [exact H2|].
  exact (perceive_condition_raises VNone (MkWorld a []) _ _ H1 H2).
Defined.

(** Sensing a clean ['A'] over the driver's initial belief. *)
Lemma vacuum_sensor_model_result_witness :
  vacuum_sensor_model (vacuum_percept "A" false) (vacuum_belief "A" true true)
    = Ok (vacuum_belief "A" false true) ∧
  ∃ loc k v old new,
    readable_percept (vacuum_percept "A" false) loc k v ∧
    dict (believed_dirt (vacuum_belief "A" true true)) = Ok old ∧
    vacuum_belief "A" false true !! KStr "loc" = Some loc ∧
    vacuum_belief "A" false true !! KStr "dirty" = Some (VDict new) ∧
    new !! k = Some v ∧
    (∀ k', k' ≠ k → new !! k' = old !! k') ∧
    (∀ key, key ≠ KStr "loc" → key ≠ KStr "dirty" →
       vacuum_belief "A" false true !! key =
       vacuum_belief "A" true true !! key).
Proof.
  assert (vacuum_sensor_model (vacuum_percept "A" false)
            (vacuum_belief "A" true true)
          = Ok (vacuum_belief "A" false true)) as H by reflexivity.
  split; [exact H|].
  exact (vacuum_sensor_model_result _ _ _ H).
Defined.

(** At a location that is neither ['A'] nor ['B'], and clean, no rule
    matches: the no-op is returned. *)
Lemma vacuum_perceive_choice_witness :
  readable_percept (vacuum_percept "C" false) (VStr "C") (KStr "C")
    (VBool false) ∧
  dirty_copyable ∅ ∧
  fst (runPy (perceive (vacuum_percept "C" false))
         (MkWorld (vacuum_agent ∅ (VStr "NO-OP")) [])) = Ok (VStr "NO-OP").
Proof.
  assert (readable_percept (vacuum_percept "C" false) (VStr "C") (KStr "C")
            (VBool false)) as Hp.
  { eexists. repeat split; reflexivity. }
  assert (dirty_copyable ∅) as Hs.
  { intros v Hv. rewrite lookup_empty in Hv. discriminate Hv. }
  split; [exact Hp|]. split; [exact Hs|].
  destruct (vacuum_perceive_choice ∅ (VStr "NO-OP") [] _ _ _ _ Hp Hs)
    as (old & _ & ->).
  reflexivity.
Defined.

(** A percept that is not a dict: [TypeError], and nothing has changed. *)
Lemma vacuum_perceive_atomic_witness :
  runPy (perceive VNone)
    (MkWorld (vacuum_agent (vacuum_belief "A" true true) (VStr "SUCK")) []) =
    (Raise TypeError,
     MkWorld (vacuum_agent (vacuum_belief "A" true true) (VStr "SUCK")) []) ∧
  vacuum_sensor_model VNone (vacuum_belief "A" true true) = Raise TypeError.
Proof.
  assert (runPy (perceive VNone)
            (MkWorld (vacuum_agent (vacuum_belief "A" true true) (VStr "SUCK"))
               []) =
          (Raise TypeError,
           MkWorld (vacuum_agent (vacuum_belief "A" true true) (VStr "SUCK"))
             [])) as H by reflexivity.
  split; [exact H|].
  exact (proj1 (vacuum_perceive_atomic _ _ _ _ _ _ H)).
Defined.

(** The first percept of the driver, perceived twice. *)
Lemma vacuum_perceive_twice_witness :
  runPy (perceive (vacuum_percept "A" true))
    (MkWorld (vacuum_agent (vacuum_belief "A" true true) (VStr "NO-OP")) []) =
    (Ok (VStr "SUCK"),
     MkWorld (vacuum_agent (vacuum_belief "A" true true) (VStr "SUCK")) []) ∧
  runPy (perceive (vacuum_percept "A" true))
    (MkWorld (vacuum_agent (vacuum_belief "A" true true) (VStr "SUCK")) []) =
    (Ok (VStr "SUCK"),
     MkWorld (vacuum_agent (vacuum_belief "A" true true) (VStr "SUCK")) []).
Proof.
  assert (runPy (perceive (vacuum_percept "A" true))
            (MkWorld (vacuum_agent (vacuum_belief "A" true true)
               (VStr "NO-OP")) []) =
          (Ok (VStr "SUCK"),
           MkWorld (vacuum_agent (vacuum_belief "A" true true) (VStr "SUCK"))
             [])) as H by reflexivity.
  split; [exact H|].
  exact (vacuum_perceive_twice _ _ _ _ _ _ H).
Defined.

(** The driver's percepts, from the driver's initial belief. *)
Lemma vacuum_drive_moves_witness :
  dirty_copyable (vacuum_belief "A" true true) ∧
  Forall (λ p, ∃ (loc : string) (dirty : bool), vacuum_percept_ok p loc dirty)
    demo_percepts ∧
  fst (runPy (drive 1 demo_percepts)
         (MkWorld (vacuum_agent (vacuum_belief "A" true true) (VStr "NO-OP"))
            [])) = Ok ().
Proof.
  assert (dirty_copyable (vacuum_belief "A" true true)) as Hs.
  { intros v Hv.
    assert (vacuum_belief "A" true true !! KStr "dirty" =
            Some (VDict (<[KStr "A" := VBool true]>
                           (<[KStr "B" := VBool true]> ∅)))) as E
      by reflexivity.
    rewrite E in Hv. injection Hv as <-. by eexists. }
  assert (Forall (λ p, ∃ (loc : string) (dirty : bool),
                    vacuum_percept_ok p loc dirty) demo_percepts) as Hps.
  { repeat constructor; eexists _, _, _;
      (split; [reflexivity|]); (split; [reflexivity|]);
      (split; [|reflexivity]); auto. }
  split; [exact Hs|]. split; [exact Hps|].
  exact (proj1 (vacuum_drive_moves 1 demo_percepts _ (VStr "NO-OP") [] Hs Hps)).
Defined.
